(** * gitlab2jira: the two Markdown-to-Jira converters

    A shallow embedding of [src/markdown2jira.py] (the list hierarchy
    reconstructor [markdown_to_jira]) and of [src/convert.py] (the pattern
    rewriter [convert_gitlab_to_jira]), and the properties of both.

    A Python [str] is modelled as a [string] whose characters are the code
    points 0..255.  A Python call either returns a value or raises; the
    only exception either function can raise is [IndexError]. *)

From Stdlib Require Import String Ascii List Arith Bool Lia.
Import ListNotations.
Open Scope string_scope.

(** ** Results of Python calls *)

Inductive exn : Type := IndexError.

Inductive result (A : Type) : Type :=
| Ok (a : A)
| Raise (e : exn).
Arguments Ok {A} a.
Arguments Raise {A} e.

Definition bind {A B : Type} (r : result A) (k : A -> result B) : result B :=
  match r with
  | Ok a => k a
  | Raise e => Raise e
  end.

Notation "x <- r ;; k" := (bind r (fun x => k))
  (at level 61, r at next level, right associativity).

(** ** The [str] methods the two programs call *)

Module PyStr.

Definition LF : ascii := "010"%char.

(** The text of one line break, what Python writes ['\n']. *)
Definition nl : string := String LF EmptyString.

(** [str.isspace] on one character, which is also what [\s] matches:
    TAB..CR, FS..US, SPACE, NEL and NBSP below code point 256. *)
Definition isspace (c : ascii) : bool :=
  let n := nat_of_ascii c in
  (((9 <=? n) && (n <=? 13)) || ((28 <=? n) && (n <=? 32))
   || (n =? 133) || (n =? 160))%nat.

(** [s.lstrip()] *)
Fixpoint lstrip (s : string) : string :=
  match s with
  | EmptyString => EmptyString
  | String c s' => if isspace c then lstrip s' else s
  end.

(** [s.startswith(p)] and [s.startswith((p1, ..., pn))] *)
Definition startswith (s p : string) : bool := prefix p s.

Definition startswith_any (s : string) (ps : list string) : bool :=
  existsb (startswith s) ps.

(** Puts [c] in front of the first piece of a split. *)
Definition cons_head (c : ascii) (pieces : list string) : list string :=
  match pieces with
  | [] => [String c EmptyString]
  | h :: t => String c h :: t
  end.

(** [s.split(sep)] for a one-character separator. *)
Fixpoint split (sep : ascii) (s : string) : list string :=
  match s with
  | EmptyString => [EmptyString]
  | String c s' =>
      if Ascii.eqb c sep then EmptyString :: split sep s'
      else cons_head c (split sep s')
  end.

(** [s.split(sep, 1)]: at most one cut, at the first separator. *)
Fixpoint split_once (sep : ascii) (s : string) : list string :=
  match s with
  | EmptyString => [EmptyString]
  | String c s' =>
      if Ascii.eqb c sep then [EmptyString; s']
      else cons_head c (split_once sep s')
  end.

(** [l[i]], which raises [IndexError] out of range. *)
Definition index {A : Type} (l : list A) (i : nat) : result A :=
  match nth_error l i with
  | Some a => Ok a
  | None => Raise IndexError
  end.

(** [sep.join(l)] *)
Fixpoint join (sep : string) (l : list string) : string :=
  match l with
  | [] => EmptyString
  | [x] => x
  | x :: t => x ++ sep ++ join sep t
  end.

(** [s * n] *)
Fixpoint mul (s : string) (n : nat) : string :=
  match n with
  | 0 => EmptyString
  | S n' => s ++ mul s n'
  end.

(** How many times the character [c] occurs in [s]. *)
Fixpoint count (c : ascii) (s : string) : nat :=
  match s with
  | EmptyString => 0
  | String x s' => (if Ascii.eqb x c then 1 else 0) + count c s'
  end.

End PyStr.

(** ** [src/markdown2jira.py] *)

Module Markdown2Jira.
Import PyStr.

(** The two local variables that the loop updates.  [stack] is kept with
    its top first: [stack.append(x)] is [x :: stack] and [stack.pop()]
    drops the head; only its length and its top are ever used.
    [jira_lines] is in output order. *)
Record state : Type := mkState {
  stack : list string;
  jira_lines : list string
}.

Definition initial : state := mkState [] [].

Definition ordered_prefixes : list string :=
  ["1."; "2."; "3."; "4."; "5."; "6."; "7."; "8."; "9."].

Definition unordered_prefixes : list string := ["-"; "*"; "+"].

Definition stripped_of (line : string) : string := lstrip line.

Definition indent_level (line : string) : nat :=
  String.length line - String.length (stripped_of line).

Definition is_ordered (line : string) : bool :=
  startswith_any (stripped_of line) ordered_prefixes.

Definition is_unordered (line : string) : bool :=
  startswith_any (stripped_of line) unordered_prefixes.

(** The test of line 13: the line is a list line. *)
Definition is_list_line (line : string) : bool :=
  is_ordered line || is_unordered line.

(** [depth = indent_level // 2] *)
Definition depth_of (line : string) : nat := indent_level line / 2.

(** [while len(stack) > depth: stack.pop()] *)
Fixpoint pop_deeper (depth : nat) (stk : list string) : list string :=
  match stk with
  | [] => []
  | _ :: below =>
      if (depth <? List.length stk)%nat then pop_deeper depth below else stk
  end.

Definition list_char_of (line : string) : string :=
  if is_ordered line then "#" else "-".

(** The marker run of line 28: [list_char * len(stack)]. *)
Definition marker_run (list_char : string) (stk : list string) : string :=
  mul list_char (List.length stk).

(** The body of the [for] loop, lines 7 to 32. *)
Definition loop_body (st : state) (line : string) : result state :=
  let stripped := stripped_of line in
  if is_list_line line then
    let depth := depth_of line in
    let stack1 := pop_deeper depth (stack st) in
    let list_char := list_char_of line in
    let stack2 := list_char :: stack1 in
    rest <- index (split_once " " stripped) 1 ;;
    let jira_line := marker_run list_char stack2 ++ " " ++ rest in
    Ok (mkState stack2 (jira_lines st ++ [jira_line]))
  else
    Ok (mkState (stack st) (jira_lines st ++ [line])).

(** [for line in lines: ...] *)
Fixpoint for_lines (st : state) (lines : list string) : result state :=
  match lines with
  | [] => Ok st
  | line :: rest => st' <- loop_body st line ;; for_lines st' rest
  end.

Definition markdown_to_jira (markdown_text : string) : result string :=
  let lines := split LF markdown_text in
  st <- for_lines initial lines ;;
  Ok (join nl (jira_lines st)).

(** What the loop appends for [line]: line 32 copies a line that is no
    list line, line 28 builds a marker run, a space and the text after
    the first space of the stripped line. *)
Definition emitted_for (line out : string) : Prop :=
  if is_list_line line
  then exists n rest,
         index (split_once " " (stripped_of line)) 1 = Ok rest /\
         out = mul (list_char_of line) n ++ " " ++ rest
  else out = line.

End Markdown2Jira.

(** ** The part of Python's [re] module that [src/convert.py] uses *)

Module PyRe.
Import PyStr.

(** What one pattern character can stand for. *)
Inductive cls : Type :=
| Dot                (* .  *)
| Space              (* \s *)
| Digit              (* \d *)
| Word               (* \w *)
| Lit (c : ascii).   (* the character itself, escaped or not *)

(** [re.MULTILINE] and [re.DOTALL] *)
Record flags : Type := mkFlags { MULTILINE : bool; DOTALL : bool }.

Definition no_flags : flags := mkFlags false false.
Definition re_MULTILINE : flags := mkFlags true false.
Definition re_DOTALL : flags := mkFlags false true.

(** The patterns of the program: anchors, one character, a repeated
    character ([*], [+], [?], [{n,}], greedy or lazy), capturing groups
    and concatenation. *)
Inductive regex : Type :=
| Eps
| Bol                                                    (* ^ *)
| Eol                                                    (* $ *)
| One (c : cls)
| Rep (c : cls) (lo : nat) (hi : option nat) (greedy : bool)
| Group (r : regex)
| Seq (r1 r2 : regex).

Definition chr (c : ascii) : regex := One (Lit c).
Definition star (c : cls) : regex := Rep c 0 None true.          (* c*   *)
Definition plus (c : cls) : regex := Rep c 1 None true.          (* c+   *)
Definition opt (c : cls) : regex := Rep c 0 (Some 1) true.       (* c?   *)
Definition lazy_star (c : cls) : regex := Rep c 0 None false.    (* c*?  *)
Definition at_least (n : nat) (c : cls) : regex := Rep c n None true. (* c{n,} *)

Fixpoint seq (rs : list regex) : regex :=
  match rs with
  | [] => Eps
  | r :: rs' => Seq r (seq rs')
  end.

Fixpoint lit (s : string) : regex :=
  match s with
  | EmptyString => Eps
  | String c s' => Seq (chr c) (lit s')
  end.

Definition in_range (lo hi : nat) (c : ascii) : bool :=
  ((lo <=? nat_of_ascii c) && (nat_of_ascii c <=? hi))%nat.

(** [\d]: the decimal digits. *)
Definition isdigit (c : ascii) : bool := in_range 48 57 c.

(** [\w]: alphanumeric or underscore, below code point 256. *)
Definition isword (c : ascii) : bool :=
  isdigit c || in_range 65 90 c || in_range 97 122 c
  || (nat_of_ascii c =? 95)%nat
  || (nat_of_ascii c =? 170)%nat || in_range 178 179 c
  || (nat_of_ascii c =? 181)%nat || in_range 185 186 c
  || in_range 188 190 c || in_range 192 214 c
  || in_range 216 246 c || in_range 248 255 c.

Definition cls_matches (f : flags) (c : cls) (x : ascii) : bool :=
  match c with
  | Dot => DOTALL f || negb (Ascii.eqb x LF)
  | Space => isspace x
  | Digit => isdigit x
  | Word => isword x
  | Lit y => Ascii.eqb x y
  end.

(** [^]: at the start of the subject, and with MULTILINE also right
    after a line break.  [prev] is the character before the position. *)
Definition at_bol (f : flags) (prev : option ascii) : bool :=
  match prev with
  | None => true
  | Some p => MULTILINE f && Ascii.eqb p LF
  end.

(** [$]: at the end of the subject or before its last line break, and
    with MULTILINE before any line break.  [s] is what is left. *)
Definition at_eol (f : flags) (s : string) : bool :=
  match s with
  | EmptyString => true
  | String x EmptyString => Ascii.eqb x LF
  | String x _ => MULTILINE f && Ascii.eqb x LF
  end.

(** A match: the groups captured, in pattern order, and what is left
    of the subject after it. *)
Definition hit : Type := (list string * string)%type.

Definition dec (hi : option nat) : option nat := option_map pred hi.

Definition may_take (hi : option nat) : bool :=
  match hi with
  | Some 0 => false
  | _ => true
  end.

(** A repeated character, followed by the continuation [k].  [lo]
    counts the repetitions still owed and [hi] those still allowed.  A
    greedy repetition tries one more character before it tries [k], a
    lazy one tries [k] first: the backtracking order of [re]. *)
Fixpoint rep (f : flags) (c : cls) (greedy : bool) (lo : nat)
    (hi : option nat) (k : option ascii -> string -> option hit)
    (prev : option ascii) (s : string) {struct s} : option hit :=
  let stop := match lo with 0 => k prev s | S _ => None end in
  let more :=
    match s with
    | EmptyString => None
    | String x s' =>
        if may_take hi && cls_matches f c x
        then rep f c greedy (pred lo) (dec hi) k (Some x) s'
        else None
    end in
  if greedy
  then match more with Some h => Some h | None => stop end
  else match stop with Some h => Some h | None => more end.

(** The text between two positions of the subject, the second given by
    what is left after it. *)
Definition consumed (s rest : string) : string :=
  substring 0 (String.length s - String.length rest) s.

(** The backtracking matcher, in continuation-passing style. *)
Fixpoint matches (f : flags) (r : regex)
    (k : option ascii -> string -> list string -> option hit)
    (prev : option ascii) (s : string) (caps : list string) : option hit :=
  match r with
  | Eps => k prev s caps
  | Bol => if at_bol f prev then k prev s caps else None
  | Eol => if at_eol f s then k prev s caps else None
  | One c =>
      match s with
      | EmptyString => None
      | String x s' => if cls_matches f c x then k (Some x) s' caps else None
      end
  | Rep c lo hi greedy =>
      rep f c greedy lo hi (fun p s' => k p s' caps) prev s
  | Group r1 =>
      matches f r1 (fun p s' caps' => k p s' (caps' ++ [consumed s s'])%list)
        prev s caps
  | Seq r1 r2 => matches f r1 (matches f r2 k) prev s caps
  end.

(** [pattern.match] at one position of the subject. *)
Definition match_at (f : flags) (r : regex) (prev : option ascii)
    (s : string) : option hit :=
  matches f r (fun _ s' caps => Some (caps, s')) prev s [].

(** Replacement templates: text and group references [\1], [\2]. *)
Inductive piece : Type :=
| Text (s : string)
| Ref (n : nat).

Fixpoint expand (repl : list piece) (caps : list string) : string :=
  match repl with
  | [] => EmptyString
  | Text t :: repl' => t ++ expand repl' caps
  | Ref n :: repl' => nth (pred n) caps EmptyString ++ expand repl' caps
  end.

(** The scan of [re.sub]: the leftmost match is replaced and the scan
    goes on after it; a character no match covers is copied.  [skip]
    counts the characters of the last match still to step over.  Each
    pattern of the program has a mandatory character, so that no match
    is empty; an empty one would insert the replacement and copy the
    character. *)
Fixpoint sub_from (f : flags) (r : regex) (repl : list piece)
    (prev : option ascii) (s : string) (skip : nat) : string :=
  match s with
  | EmptyString =>
      match skip, match_at f r prev EmptyString with
      | 0, Some (caps, _) => expand repl caps
      | _, _ => EmptyString
      end
  | String x s' =>
      match skip with
      | S n => sub_from f r repl (Some x) s' n
      | 0 =>
          match match_at f r prev s with
          | None => String x (sub_from f r repl (Some x) s' 0)
          | Some (caps, rest) =>
              expand repl caps ++
              match String.length s - String.length rest with
              | 0 => String x (sub_from f r repl (Some x) s' 0)
              | S n => sub_from f r repl (Some x) s' n
              end
          end
      end
  end.

(** [re.sub(pattern, repl, string, flags=f)] *)
Definition sub (r : regex) (repl : list piece) (s : string) (f : flags)
  : string :=
  sub_from f r repl None s 0.

End PyRe.

(** ** [src/convert.py] *)

Module Convert.
Import PyStr PyRe.

(** One [re.sub] line of the program. *)
Record rule : Type := mkRule {
  pattern : regex;
  replacement : list piece;
  mode : flags
}.

Definition apply (text : string) (r : rule) : string :=
  sub (pattern r) (replacement r) text (mode r).

(** The two groups of the program's patterns: the greedy group, a
    parenthesised dot-star, is [any] and the lazy one, a parenthesised
    dot-star-question-mark, is [few].  The comments below quote each
    pattern with ANY and FEW in their places. *)
Definition any : regex := Group (star Dot).
Definition few : regex := Group (lazy_star Dot).

(** Lines 5 to 7: [^#\s+ANY$], [^##\s+ANY$], [^###\s+ANY$] *)
Definition header (hashes : string) (prefix : string) : rule :=
  mkRule (seq [Bol; lit hashes; plus Space; any; Eol])
         [Text prefix; Ref 1] re_MULTILINE.

(** Lines 10 to 13 and 46: [openFEWclose] to [l\1r]. *)
Definition span (open close l r : string) : rule :=
  mkRule (seq [lit open; few; lit close]) [Text l; Ref 1; Text r] no_flags.

Definition bold : rule := span "**" "**" "*" "*".
Definition bold_underscore : rule := span "__" "__" "*" "*".
Definition emphasis : rule := span "*" "*" "_" "_".
Definition emphasis_underscore : rule := span "_" "_" "_" "_".

(** Lines 16 and 17: [^\s*-\s+ANY$] and [^\s{2,}-\s+ANY$] *)
Definition unordered : rule :=
  mkRule (seq [Bol; star Space; chr "-"; plus Space; any; Eol])
         [Text "- "; Ref 1] re_MULTILINE.
Definition unordered_nested : rule :=
  mkRule (seq [Bol; at_least 2 Space; chr "-"; plus Space; any; Eol])
         [Text "-- "; Ref 1] re_MULTILINE.

(** Lines 20 and 21: [^\s*\d+\.\s+ANY$] and [^\s{2,}\d+\.\s+ANY$] *)
Definition ordered : rule :=
  mkRule (seq [Bol; star Space; plus Digit; chr "."; plus Space; any; Eol])
         [Text "# "; Ref 1] re_MULTILINE.
Definition ordered_nested : rule :=
  mkRule (seq [Bol; at_least 2 Space; plus Digit; chr "."; plus Space;
               any; Eol])
         [Text "## "; Ref 1] re_MULTILINE.

(** Line 24: [\[FEW\]\(FEW\)] to [[\1|\2]] *)
Definition link : rule :=
  mkRule (seq [chr "["; few; lit "]("; few; chr ")"])
         [Text "["; Ref 1; Text "|"; Ref 2; Text "]"] no_flags.

(** Line 27: [!\[FEW\]\(FEW\)] to [!\2|alt=\1!] *)
Definition image : rule :=
  mkRule (seq [lit "!["; few; lit "]("; few; chr ")"])
         [Text "!"; Ref 2; Text "|alt="; Ref 1; Text "!"] no_flags.

(** Line 30: [`FEW`] to [{{\1}}] *)
Definition inline_code : rule := span "`" "`" "{{" "}}".

(** Line 33: [```FEW\nFEW```] to [{code:\1}\n\2\n{code}], DOTALL *)
Definition code_block : rule :=
  mkRule (seq [lit "```"; few; chr LF; few; lit "```"])
         [Text "{code:"; Ref 1; Text ("}" ++ nl); Ref 2;
          Text (nl ++ "{code}")] re_DOTALL.

(** Line 36: [^>\s+ANY$] to [{quote}\n\1\n{quote}] *)
Definition blockquote : rule :=
  mkRule (seq [Bol; chr ">"; plus Space; any; Eol])
         [Text ("{quote}" ++ nl); Ref 1; Text (nl ++ "{quote}")]
         re_MULTILINE.

(** Lines 39 and 40: [^\|ANY\|$] and [^\|\s*:?-+:?\s*\|] *)
Definition table_row : rule :=
  mkRule (seq [Bol; chr "|"; any; chr "|"; Eol])
         [Text "||"; Ref 1; Text "||"] re_MULTILINE.
Definition table_separator : rule :=
  mkRule (seq [Bol; chr "|"; star Space; opt (Lit ":"); plus (Lit "-");
               opt (Lit ":"); star Space; chr "|"])
         [Text "|"] re_MULTILINE.

(** Line 43: [^-{3,}] to [----], with no flag. *)
Definition horizontal_rule : rule :=
  mkRule (seq [Bol; at_least 3 (Lit "-")]) [Text "----"] no_flags.

(** Line 46: [~~FEW~~] to [-\1-] *)
Definition strikethrough : rule := span "~~" "~~" "-" "-".

(** Line 49: [@(\w+)] to [[~\1]] *)
Definition mention : rule :=
  mkRule (seq [chr "@"; Group (plus Word)])
         [Text "[~"; Ref 1; Text "]"] no_flags.

(** The rules in the order of the program's lines. *)
Definition rules : list rule :=
  [ header "#" "h1. "; header "##" "h2. "; header "###" "h3. ";
    bold; bold_underscore; emphasis; emphasis_underscore;
    unordered; unordered_nested;
    ordered; ordered_nested;
    link;
    image;
    inline_code;
    code_block;
    blockquote;
    table_row; table_separator;
    horizontal_rule;
    strikethrough;
    mention ].

(** [markdown_text] is reassigned by each line in turn. *)
Definition convert_gitlab_to_jira (markdown_text : string) : string :=
  fold_left apply rules markdown_text.

(** Two documents of the examples: a fenced code block with a language
    tag and a body of two lines, and three hyphens on a second line. *)
Definition fenced : string :=
  "```py" ++ nl ++ "a" ++ nl ++ "b" ++ nl ++ "```".

Definition rule_below : string := "a" ++ nl ++ "---".

End Convert.

(** ** The script of [src/markdown2jira.py], lines 37 to 49 *)

Module Script.
Import PyStr Markdown2Jira.

(** The example document of lines 38 to 46: the text between the triple
    quotes, which starts and ends with a line break. *)
Definition markdown_text : string :=
  nl ++ "1. First item" ++ nl ++
  "   - Nested unordered item 1" ++ nl ++
  "   - Nested unordered item 2" ++ nl ++
  "     1. Nested ordered item 1" ++ nl ++
  "     2. Nested ordered item 2" ++ nl ++
  "2. Second item" ++ nl ++
  "   - Nested unordered item 3" ++ nl.

(** Line 48; line 49 prints it. *)
Definition jira_text : result string := markdown_to_jira markdown_text.

End Script.

(** ** Shapes of documents *)

Module Shape.
Import PyStr Markdown2Jira.

(** No line of the list is a list line. *)
Definition no_list_line (lines : list string) : bool :=
  forallb (fun line => negb (is_list_line line)) lines.


(** The list lines of a run with what the loop appended for each: [outs]
    are the lines appended for [lines], place by place. *)
Definition list_outputs (lines outs : list string) : list string :=
  map snd (filter (fun p => is_list_line (fst p)) (combine lines outs)).

(** What line 28 builds for the list line [line] when the stack has [n]
    entries: [n] markers, a space and the text after the first space. *)
Definition list_item (line : string) (n : nat) (out : string) : Prop :=
  exists rest,
    index (split_once " " (stripped_of line)) 1 = Ok rest /\
    out = mul (list_char_of line) n ++ " " ++ rest.

End Shape.

(** ** Shapes of texts and of patterns *)

Module Trigger.
Import PyStr PyRe Convert.

(** The 256 characters. *)
Definition all_chars : list ascii := map ascii_of_nat (List.seq 0 256).

(** No character of [s] is one that [bad] holds of. *)
Fixpoint lacks (bad : ascii -> bool) (s : string) : bool :=
  match s with
  | EmptyString => true
  | String x s' => negb (bad x) && lacks bad s'
  end.

(** Every character of [s] is one that [good] holds of. *)
Definition all_of (good : ascii -> bool) (s : string) : bool :=
  lacks (fun x => negb (good x)) s.

(** Every character that the class matches is one that [bad] holds of. *)
Definition cls_within (f : flags) (bad : ascii -> bool) (c : cls) : bool :=
  forallb (fun x => implb (cls_matches f c x) (bad x)) all_chars.

(** A match of the pattern has to go over a character that [bad] holds
    of: the pattern has a mandatory character, all of whose readings are
    such. *)
Fixpoint needs (f : flags) (bad : ascii -> bool) (r : regex) : bool :=
  match r with
  | One c => cls_within f bad c
  | Rep c (S _) _ _ => cls_within f bad c
  | Group r1 => needs f bad r1
  | Seq r1 r2 => needs f bad r1 || needs f bad r2
  | _ => false
  end.

(** The pattern starts with the anchor. *)
Definition anchored (r : regex) : bool :=
  match r with
  | Seq Bol _ => true
  | _ => false
  end.

Definition is_char (c : ascii) (x : ascii) : bool := Ascii.eqb x c.

(** The punctuation that the patterns of the program start from. *)
Definition symbols : list ascii :=
  ["#"; "*"; "_"; "-"; "["; "`"; ">"; "|"; "~"; "@"]%char.

Definition is_symbol (x : ascii) : bool := existsb (Ascii.eqb x) symbols.

Definition is_markup (x : ascii) : bool := isdigit x || is_symbol x.

(** The first character of [s], if it has one, is none that [bad] holds
    of. *)
Definition starts_without (bad : ascii -> bool) (s : string) : bool :=
  match s with
  | EmptyString => true
  | String x _ => negb (bad x)
  end.

(** Every line of the text is empty or starts with a character that is
    neither white space nor a digit; [at_start] tells whether the text
    starts at the start of a line. *)
Fixpoint lines_start_plain (at_start : bool) (s : string) : bool :=
  match s with
  | EmptyString => true
  | String x s' =>
      (negb at_start || Ascii.eqb x LF || negb (isspace x || isdigit x))
      && lines_start_plain (Ascii.eqb x LF) s'
  end.

(** The character before the position reached by reading [s] from a
    position that has [p] before it. *)
Fixpoint prev_after (p : option ascii) (s : string) : option ascii :=
  match s with
  | EmptyString => p
  | String x s' => prev_after (Some x) s'
  end.

End Trigger.

(** * Properties *)

Import PyStr Markdown2Jira PyRe Convert.
Import Script Shape Trigger.

(** ** Strings *)

Section StringFacts.

Variable c : ascii.

Lemma count_app (a b : string) : count c (a ++ b) = count c a + count c b.
Proof.
  induction a as [|x a IH]; simpl; [reflexivity | rewrite IH; lia].
Qed.

Lemma count_mul (s : string) (n : nat) : count c (mul s n) = n * count c s.
Proof.
  induction n as [|n IH]; simpl; [reflexivity | rewrite count_app, IH; lia].
Qed.

Lemma count_lstrip (s : string) : count c (lstrip s) <= count c s.
Proof.
  induction s as [|x s IH]; simpl; [lia |].
  destruct (isspace x); simpl; lia.
Qed.

Lemma count_cons_head (x : ascii) (l : list string) :
  Forall (fun p => count c p = 0) l -> Ascii.eqb x c = false ->
  Forall (fun p => count c p = 0) (cons_head x l).
Proof.
  intros Hl Hx. destruct Hl as [|p l Hp Hl]; simpl.
  - constructor; [simpl; rewrite Hx; reflexivity | constructor].
  - constructor; [simpl; rewrite Hx, Hp; reflexivity | assumption].
Qed.

(** No piece of [s.split(c)] holds the separator. *)
Lemma split_pieces (s : string) : Forall (fun p => count c p = 0) (split c s).
Proof.
  induction s as [|x s IH]; simpl.
  - constructor; [reflexivity | constructor].
  - destruct (Ascii.eqb x c) eqn:E.
    + constructor; [reflexivity | assumption].
    + apply count_cons_head; assumption.
Qed.

Lemma split_none (s : string) : count c s = 0 -> split c s = [s].
Proof.
  induction s as [|x s IH]; simpl; [reflexivity |].
  destruct (Ascii.eqb x c); [discriminate |].
  intros H. rewrite IH by exact H. reflexivity.
Qed.

Lemma split_app (a b : string) :
  count c a = 0 -> split c (a ++ String c b) = a :: split c b.
Proof.
  induction a as [|x a IH]; simpl.
  - intros _. rewrite Ascii.eqb_refl. reflexivity.
  - destruct (Ascii.eqb x c); [discriminate |].
    intros H. rewrite IH by exact H. reflexivity.
Qed.

(** [split] undoes [join] on pieces that do not hold the separator. *)
Lemma split_join (l : list string) :
  l <> [] -> Forall (fun p => count c p = 0) l ->
  split c (join (String c EmptyString) l) = l.
Proof.
  induction l as [|x l IH]; [congruence |].
  intros _ Hl. inversion Hl as [|? ? Hx Hl']; subst.
  destruct l as [|y l].
  - simpl. apply split_none, Hx.
  - change (join (String c EmptyString) (x :: y :: l))
      with (x ++ String c (join (String c EmptyString) (y :: l))).
    rewrite split_app by exact Hx.
    rewrite IH; [reflexivity | discriminate | assumption].
Qed.

(** [s.split(c, 1)] has one piece when [c] is absent and two, the
    second a suffix of [s], when it is present. *)
Lemma split_once_cases (s : string) :
  (count c s = 0 /\ split_once c s = [s]) \/
  (exists a b, split_once c s = [a; b] /\ s = a ++ String c b).
Proof.
  induction s as [|x s IH]; simpl.
  - left. split; reflexivity.
  - destruct (Ascii.eqb x c) eqn:E.
    + right. exists EmptyString, s. apply Ascii.eqb_eq in E. subst x.
      split; reflexivity.
    + destruct IH as [[H0 H1] | (a & b & H1 & H2)].
      * left. rewrite H1. split; [exact H0 | reflexivity].
      * right. exists (String x a), b. rewrite H1, H2.
        split; reflexivity.
Qed.

End StringFacts.

Lemma index_split_once_raises (s : string) :
  index (split_once " " s) 1 = Raise IndexError <-> count " " s = 0.
Proof.
  destruct (split_once_cases " " s) as [[H0 H1] | (a & b & H1 & H2)];
    rewrite H1; unfold index; simpl.
  - split; [intros _; exact H0 | reflexivity].
  - split; [discriminate |].
    rewrite H2, count_app. simpl. lia.
Qed.

Lemma index_split_once_rest (c : ascii) (s rest : string) :
  index (split_once " " s) 1 = Ok rest -> count c rest <= count c s.
Proof.
  destruct (split_once_cases " " s) as [[H0 H1] | (a & b & H1 & H2)];
    rewrite H1; unfold index; simpl.
  - discriminate.
  - intros [= <-]. rewrite H2, count_app. simpl. lia.
Qed.

(** ** The list hierarchy reconstructor *)

Section Reconstructor.

(** The [while] loop of lines 16 and 17 leaves at most [depth] entries
    and removes none when there are no more than that. *)
Lemma pop_deeper_length (depth : nat) (stk : list string) :
  List.length (pop_deeper depth stk) = Nat.min (List.length stk) depth.
Proof.
  induction stk as [|x stk IH]; [reflexivity |].
  cbn [pop_deeper].
  destruct (depth <? List.length (x :: stk))%nat eqn:E.
  - apply Nat.ltb_lt in E. rewrite IH. simpl List.length in *. lia.
  - apply Nat.ltb_ge in E. lia.
Qed.

Lemma list_char_no (c : ascii) (line : string) :
  c <> "#"%char -> c <> "-"%char -> count c (list_char_of line) = 0.
Proof.
  intros H1 H2. unfold list_char_of.
  destruct (is_ordered line); cbn [count];
    [destruct (Ascii.eqb_spec "#" c) | destruct (Ascii.eqb_spec "-" c)];
    congruence || reflexivity.
Qed.

(** How [loop_body] ends on a list line. *)
Lemma loop_body_list (st : state) (line : string) :
  is_list_line line = true ->
  loop_body st line =
    (rest <- index (split_once " " (stripped_of line)) 1 ;;
     let stk := list_char_of line :: pop_deeper (depth_of line) (stack st) in
     Ok (mkState stk
           (jira_lines st ++
            [marker_run (list_char_of line) stk ++ " " ++ rest]))).
Proof. intros H. unfold loop_body. rewrite H. reflexivity. Qed.

(** How [loop_body] ends on any other line. *)
Lemma loop_body_plain (st : state) (line : string) :
  is_list_line line = false ->
  loop_body st line = Ok (mkState (stack st) (jira_lines st ++ [line])).
Proof. intros H. unfold loop_body. rewrite H. reflexivity. Qed.

(** The body raises exactly on a list line with no space after its
    leading white space: [split(' ', 1)] has then a single piece. *)
Lemma loop_body_raises (st : state) (line : string) :
  loop_body st line = Raise IndexError <->
  is_list_line line = true /\ count " " (stripped_of line) = 0.
Proof.
  destruct (is_list_line line) eqn:E.
  - rewrite loop_body_list by exact E.
    rewrite <- index_split_once_raises.
    destruct (index (split_once " " (stripped_of line)) 1) as [r | []];
      simpl; split; intros H; try discriminate; auto.
    destruct H as [_ H]. discriminate.
  - rewrite loop_body_plain by exact E.
    split; [discriminate | intros [H _]; discriminate].
Qed.

(** The body appends exactly one line, the one [emitted_for] describes,
    with no line break in it if the input line has none. *)
Lemma loop_body_appends (st st' : state) (line : string) :
  loop_body st line = Ok st' ->
  exists out,
    jira_lines st' = (jira_lines st ++ [out])%list /\
    emitted_for line out /\
    (count LF line = 0 -> count LF out = 0).
Proof.
  unfold emitted_for. destruct (is_list_line line) eqn:E.
  - rewrite loop_body_list by exact E.
    destruct (index (split_once " " (stripped_of line)) 1) as [r | e] eqn:I;
      simpl; [| discriminate].
    intros [= <-]. eexists. split; [reflexivity |]. split.
    + exists (S (List.length (pop_deeper (depth_of line) (stack st)))), r.
      split; reflexivity.
    + intros H. unfold marker_run.
      rewrite !count_app, count_mul, list_char_no by discriminate.
      pose proof (index_split_once_rest LF _ _ I) as Hr.
      pose proof (count_lstrip LF line) as Hs.
      unfold stripped_of in Hr. simpl. lia.
  - rewrite loop_body_plain by exact E.
    intros [= <-]. exists line. repeat split; auto.
Qed.

Lemma for_lines_snoc (st : state) (lines : list string) (line : string) :
  for_lines st (lines ++ [line])%list =
    (st' <- for_lines st lines ;; loop_body st' line).
Proof.
  revert st. induction lines as [|l lines IH]; intros st; simpl.
  - destruct (loop_body st line); reflexivity.
  - destruct (loop_body st l); simpl; [apply IH | reflexivity].
Qed.

(** The loop appends one output line per input line. *)
Lemma for_lines_appends (lines : list string) :
  forall st st', for_lines st lines = Ok st' ->
  exists outs,
    jira_lines st' = (jira_lines st ++ outs)%list /\
    Forall2 emitted_for lines outs /\
    (Forall (fun l => count LF l = 0) lines ->
     Forall (fun o => count LF o = 0) outs).
Proof.
  induction lines as [|l lines IH]; intros st st'; simpl.
  - intros [= <-]. exists []. rewrite app_nil_r. repeat constructor.
  - destruct (loop_body st l) as [st1 | e] eqn:B; simpl; [| discriminate].
    intros H.
    destruct (loop_body_appends _ _ _ B) as (o & Ho & He & Hn).
    destruct (IH _ _ H) as (outs & Houts & Hes & Hns).
    exists (o :: outs). rewrite Houts, Ho, <- app_assoc. split; [reflexivity |].
    split; [constructor; assumption |].
    intros Hl. inversion Hl; subst. constructor; auto.
Qed.

(** The loop raises exactly when some line makes the body raise. *)
Lemma for_lines_raises (lines : list string) :
  forall st,
  for_lines st lines = Raise IndexError <->
  Exists (fun l => is_list_line l = true /\ count " " (stripped_of l) = 0)
    lines.
Proof.
  induction lines as [|l lines IH]; intros st; simpl.
  - split; [discriminate | intros H; inversion H].
  - destruct (loop_body st l) as [st1 | []] eqn:B; simpl.
    + rewrite IH. split; [intros H; right; exact H |].
      intros H. inversion H as [? ? Hl | ? ? Hl]; subst; [| exact Hl].
      apply (loop_body_raises st) in Hl. congruence.
    + split; [intros _; left; apply (loop_body_raises st), B | reflexivity].
Qed.

(** [markdown_to_jira] raises [IndexError] exactly on the documents with
    a list line that has no space after its leading white space. *)
Lemma markdown_to_jira_raises (text : string) :
  markdown_to_jira text = Raise IndexError <->
  Exists (fun l => is_list_line l = true /\ count " " (stripped_of l) = 0)
    (split LF text).
Proof.
  unfold markdown_to_jira. rewrite <- (for_lines_raises _ initial).
  destruct (for_lines initial (split LF text)) as [st | []]; simpl;
    split; intros H; try discriminate; reflexivity.
Qed.

End Reconstructor.

(** ** What [markdown_to_jira] does with the stack *)

(** C1, at the failing input: a line that is only a list marker makes
    [markdown_to_jira] raise [IndexError] instead of returning a string,
    because [stripped.split(' ', 1)] has then no element 1; so does any
    list line without a space, such as a line of emphasised text. *)
Theorem markdown_to_jira_bare_marker :
  markdown_to_jira "-" = Raise IndexError /\
  markdown_to_jira "**bold**" = Raise IndexError /\
  markdown_to_jira ("text" ++ nl ++ "  1.") = Raise IndexError.
Proof. repeat split; reflexivity. Qed.

(** C5, as stated, fails: on the one-line document of a list item
    indented by four spaces the computed depth is 2, and the stack has
    one entry after the line, not three. *)
Lemma stack_length_is_not_depth_plus_one :
  exists st',
    for_lines initial (split LF "    - x") = Ok st' /\
    is_list_line "    - x" = true /\
    depth_of "    - x" = 2 /\
    List.length (stack st') = 1 /\
    List.length (stack st') <> depth_of "    - x" + 1.
Proof.
  exists (mkState ["-"] ["- x"]).
  repeat split; try reflexivity. vm_compute. discriminate.
Qed.

(** C5, amended: after a list line the stack has one entry more than the
    smaller of its previous length and the line's depth, hence at most
    depth + 1 entries, and exactly depth + 1 when it had at least depth
    entries before; a line that is no list line leaves the stack as it
    was. *)
Theorem stack_length_after_line (st st' : state) (line : string) :
  loop_body st line = Ok st' ->
  (is_list_line line = true ->
     List.length (stack st') =
       Nat.min (List.length (stack st)) (depth_of line) + 1 /\
     List.length (stack st') <= depth_of line + 1 /\
     (depth_of line <= List.length (stack st) ->
      List.length (stack st') = depth_of line + 1)) /\
  (is_list_line line = false -> stack st' = stack st).
Proof.
  intros H. split; intros E.
  - rewrite loop_body_list in H by exact E.
    destruct (index (split_once " " (stripped_of line)) 1); simpl in H;
      [| discriminate].
    injection H as <-. cbn [stack List.length].
    rewrite pop_deeper_length. lia.
  - rewrite loop_body_plain in H by exact E.
    injection H as <-. reflexivity.
Qed.

Lemma stack_length_after_line_witness :
  loop_body (mkState ["-"; "#"; "#"] []) "  - x"
    = Ok (mkState ["-"; "#"] ["-- x"]) /\
  is_list_line "  - x" = true /\
  List.length (stack (mkState ["-"; "#"] ["-- x"]))
    = Nat.min (List.length (stack (mkState ["-"; "#"; "#"] [])))
        (depth_of "  - x") + 1.
Proof.
  split; [reflexivity |]. split; [reflexivity |].
  exact (proj1 (proj1 (stack_length_after_line
                         (mkState ["-"; "#"; "#"] []) _ "  - x" eq_refl)
                 eq_refl)).
Defined.

(** C6, as stated, fails: two list items at depth 0 in a row leave the
    stack at one entry after each, and both are emitted with a marker run
    of one character. *)
Lemma same_depth_siblings_do_not_grow :
  exists st1 st2,
    loop_body initial "- a" = Ok st1 /\
    loop_body st1 "- b" = Ok st2 /\
    depth_of "- a" = depth_of "- b" /\
    List.length (stack st1) = 1 /\
    List.length (stack st2) = 1 /\
    List.length (stack st2) <> S (List.length (stack st1)) /\
    jira_lines st2 = ["- a"; "- b"] /\
    markdown_to_jira ("- a" ++ nl ++ "- b") = Ok ("- a" ++ nl ++ "- b").
Proof.
  exists (mkState ["-"] ["- a"]), (mkState ["-"] ["- a"; "- b"]).
  repeat split; try reflexivity. vm_compute. discriminate.
Qed.

(** C6, amended: the stack is first cut down to the line's depth, so that
    for two list lines in a row at the same depth d the second leaves
    min(n1, d) + 1 entries, where n1 is what the first left.  The marker
    run of the second line is never shorter than that of the first and
    never longer than d + 1; it is one longer while the first is at most
    d long, and stays d + 1 once it is d + 1. *)
Theorem same_depth_siblings (st st1 st2 : state) (l1 l2 : string) :
  is_list_line l1 = true ->
  is_list_line l2 = true ->
  depth_of l2 = depth_of l1 ->
  loop_body st l1 = Ok st1 ->
  loop_body st1 l2 = Ok st2 ->
  List.length (stack st2)
    = Nat.min (List.length (stack st1)) (depth_of l1) + 1 /\
  List.length (stack st1) <= List.length (stack st2) <= depth_of l1 + 1 /\
  (List.length (stack st1) <= depth_of l1 ->
   List.length (stack st2) = List.length (stack st1) + 1) /\
  (List.length (stack st1) = depth_of l1 + 1 ->
   List.length (stack st2) = List.length (stack st1)) /\
  (exists r1, last (jira_lines st1) EmptyString
     = mul (list_char_of l1) (List.length (stack st1)) ++ " " ++ r1) /\
  (exists r2, last (jira_lines st2) EmptyString
     = mul (list_char_of l2) (List.length (stack st2)) ++ " " ++ r2).
Proof.
  intros E1 E2 D H1 H2.
  rewrite loop_body_list in H1 by exact E1.
  rewrite loop_body_list in H2 by exact E2.
  destruct (index (split_once " " (stripped_of l1)) 1) as [r1 | e];
    simpl in H1; [| discriminate].
  destruct (index (split_once " " (stripped_of l2)) 1) as [r2 | e];
    simpl in H2; [| discriminate].
  injection H2 as <-. injection H1 as <-.
  cbn [stack jira_lines List.length]. rewrite !last_last.
  rewrite D, !pop_deeper_length. cbn [List.length].
  rewrite pop_deeper_length.
  repeat split; try lia.
  - exists r1. unfold marker_run. cbn [List.length].
    rewrite pop_deeper_length. reflexivity.
  - exists r2. unfold marker_run. cbn [List.length].
    rewrite !pop_deeper_length. cbn [List.length].
    rewrite pop_deeper_length. reflexivity.
Qed.

Lemma same_depth_siblings_witness :
  List.length (stack (mkState ["-"; "-"] ["- a"; "-- b"; "-- c"]))
    = Nat.min (List.length (stack (mkState ["-"; "-"] ["- a"; "-- b"])))
        (depth_of "  - b") + 1.
Proof.
  exact (proj1 (same_depth_siblings
                  (mkState ["-"] ["- a"])
                  (mkState ["-"; "-"] ["- a"; "-- b"])
                  (mkState ["-"; "-"] ["- a"; "-- b"; "-- c"])
                  "  - b" "  - c"
                  eq_refl eq_refl eq_refl eq_refl eq_refl)).
Defined.

(** C9, as stated, fails: alone in the document, the item indented by two
    spaces is emitted with one marker, not two. *)
Lemma nested_item_alone_has_one_marker :
  markdown_to_jira "  - item" = Ok "- item" /\
  markdown_to_jira "  - item" <> Ok "-- item".
Proof. split; [reflexivity | vm_compute; discriminate]. Qed.

Lemma split_nonempty (c : ascii) (s : string) : split c s <> [].
Proof.
  destruct s as [|x s]; simpl; [discriminate |].
  destruct (Ascii.eqb x c); [discriminate |].
  destruct (split c s); discriminate.
Qed.

Section LastLine.

(** A text cut at a separator splits into the pieces of both parts. *)
Lemma split_append (c : ascii) (a b : string) :
  split c (a ++ String c b) = (split c a ++ split c b)%list.
Proof.
  induction a as [|x a IH]; cbn [append split].
  - rewrite Ascii.eqb_refl. reflexivity.
  - rewrite IH. destruct (Ascii.eqb x c); [reflexivity |].
    pose proof (split_nonempty c a) as Hne.
    destruct (split c a); [congruence | reflexivity].
Qed.

Lemma append_regroup (a b c : string) : (a ++ b) ++ c = a ++ b ++ c.
Proof. induction a as [|x a IH]; cbn [append]; [| rewrite IH]; reflexivity. Qed.

Lemma join_snoc (sep : string) (l : list string) (o : string) :
  l <> [] -> join sep (l ++ [o]) = join sep l ++ sep ++ o.
Proof.
  induction l as [|x l IH]; [congruence |]. intros _.
  destruct l as [|y l]; [reflexivity |].
  change (join sep ((x :: y :: l) ++ [o]))
    with (x ++ sep ++ join sep ((y :: l) ++ [o])).
  rewrite IH by discriminate.
  change (join sep (x :: y :: l)) with (x ++ sep ++ join sep (y :: l)).
  rewrite !append_regroup. reflexivity.
Qed.

(** The stack is empty as long as no list line has been read, and never
    again after one. *)
Lemma for_lines_stack (lines : list string) :
  forall st0 st,
  for_lines st0 lines = Ok st ->
  if existsb is_list_line lines
  then stack st <> []
  else stack st = stack st0.
Proof.
  induction lines as [|l lines IH]; intros st0 st F; simpl in F.
  - injection F as <-. reflexivity.
  - destruct (loop_body st0 l) as [st1 | e] eqn:B; simpl in F; [| discriminate].
    specialize (IH _ _ F). cbn [existsb].
    destruct (is_list_line l) eqn:E; cbn [orb].
    + rewrite loop_body_list in B by exact E.
      destruct (index (split_once " " (stripped_of l)) 1); simpl in B;
        [| discriminate].
      injection B as <-. cbn [stack] in IH.
      destruct (existsb is_list_line lines); [exact IH |].
      rewrite IH. discriminate.
    + rewrite loop_body_plain in B by exact E. injection B as <-.
      exact IH.
Qed.

(** The loop body on the item indented by two spaces: two markers on a
    stack that has an entry, one on the empty stack. *)
Lemma loop_body_nested_item (st : state) :
  loop_body st "  - item"
  = Ok (mkState ("-" :: pop_deeper 1 (stack st))
          (jira_lines st ++
           [match stack st with [] => "- item" | _ :: _ => "-- item" end])).
Proof.
  rewrite loop_body_list by reflexivity.
  change (index (split_once " " (stripped_of "  - item")) 1) with (Ok "item").
  change (depth_of "  - item") with 1.
  change (list_char_of "  - item") with "-".
  cbn [bind]. unfold marker_run. cbn [List.length].
  rewrite pop_deeper_length.
  destruct (stack st) as [|x [|y stk]]; reflexivity.
Qed.

End LastLine.

(** C9, amended: the unordered item at indent 0 yields itself and the
    ordered item at indent 0 yields the hash marker.  The item indented
    by two spaces yields one marker, not two, when it is the only line.
    Added as a new last line to a document that [markdown_to_jira]
    converts, it comes out with two markers if some line of the document
    is a list line and with one marker if none is, after the output of
    the document. *)
Theorem list_reconstructor_items (doc out : string) :
  markdown_to_jira doc = Ok out ->
  markdown_to_jira "- item" = Ok "- item" /\
  markdown_to_jira "1. item" = Ok "# item" /\
  markdown_to_jira "  - item" = Ok "- item" /\
  markdown_to_jira (doc ++ nl ++ "  - item")
    = Ok (out ++ nl ++
          (if existsb is_list_line (split LF doc)
           then "-- item" else "- item")).
Proof.
  intros H. repeat (split; [reflexivity |]).
  unfold markdown_to_jira in *.
  destruct (for_lines initial (split LF doc)) as [st | e] eqn:F; simpl in H;
    [| discriminate].
  injection H as <-.
  change (doc ++ nl ++ "  - item") with (doc ++ String LF "  - item").
  rewrite split_append.
  change (split LF "  - item") with ["  - item"].
  rewrite for_lines_snoc, F. cbn [bind].
  rewrite loop_body_nested_item. cbn [bind jira_lines].
  rewrite join_snoc.
  - pose proof (for_lines_stack _ _ _ F) as S.
    destruct (existsb is_list_line (split LF doc)).
    + destruct (stack st); [congruence | reflexivity].
    + rewrite S. reflexivity.
  - destruct (for_lines_appends _ _ _ F) as (outs & Ho & He & _).
    rewrite Ho. cbn [jira_lines initial app]. intros ->.
    inversion He as [Hnil |]. symmetry in Hnil.
    exact (split_nonempty _ _ Hnil).
Qed.

Lemma list_reconstructor_items_witness :
  markdown_to_jira ("text" ++ nl ++ "  - a") = Ok ("text" ++ nl ++ "- a") /\
  markdown_to_jira (("text" ++ nl ++ "  - a") ++ nl ++ "  - item")
    = Ok (("text" ++ nl ++ "- a") ++ nl ++ "-- item").
Proof.
  split; [reflexivity |].
  exact (proj2 (proj2 (proj2 (list_reconstructor_items
                                ("text" ++ nl ++ "  - a")
                                ("text" ++ nl ++ "- a") eq_refl)))).
Defined.

(** C10: when [markdown_to_jira] returns, its output splits into as many
    lines as its input, and the line at each place is the one the loop
    emits for the input line at that place: the line itself when it is no
    list line, a marker run, a space and the item's text when it is. *)
Theorem line_count_preserved (text out : string) :
  markdown_to_jira text = Ok out ->
  List.length (split LF out) = List.length (split LF text) /\
  Forall2 emitted_for (split LF text) (split LF out).
Proof.
  unfold markdown_to_jira.
  destruct (for_lines initial (split LF text)) as [st | e] eqn:F; simpl;
    [| discriminate].
  intros [= <-].
  destruct (for_lines_appends _ _ _ F) as (outs & Ho & He & Hn).
  simpl in Ho. rewrite Ho.
  assert (Hs : split LF (join nl outs) = outs).
  { apply split_join; [| apply Hn, split_pieces].
    intros ->. inversion He as [Hnil |]. symmetry in Hnil.
    exact (split_nonempty _ _ Hnil). }
  rewrite Hs. split; [| exact He].
  symmetry. exact (Forall2_length He).
Qed.

Lemma line_count_preserved_witness :
  markdown_to_jira ("1. a" ++ nl ++ "  - b" ++ nl ++ "text")
    = Ok ("# a" ++ nl ++ "-- b" ++ nl ++ "text") /\
  List.length (split LF ("# a" ++ nl ++ "-- b" ++ nl ++ "text"))
    = List.length (split LF ("1. a" ++ nl ++ "  - b" ++ nl ++ "text")).
Proof.
  split; [reflexivity |].
  exact (proj1 (line_count_preserved
                  ("1. a" ++ nl ++ "  - b" ++ nl ++ "text")
                  ("# a" ++ nl ++ "-- b" ++ nl ++ "text") eq_refl)).
Defined.

(** ** The pattern rewriter *)

(** C2, at the failing input: line 10 turns the bold text into
    single-star text, and line 12 then takes that for emphasis and
    rewrites it with underscores; the function returns the underscore
    form, not the single-star form. *)
Theorem convert_bold :
  apply "**bold**" bold = "*bold*" /\
  apply "*bold*" emphasis = "_bold_" /\
  convert_gitlab_to_jira "**bold**" = "_bold_".
Proof. repeat split; vm_compute; reflexivity. Qed.

(** C3, at the failing input: the inline-code rule of line 30 runs before
    the code-block rule of line 33 and rewrites two of the three backticks
    of each fence as an empty inline code, so that line 33 finds no fence
    left; on the untouched document line 33 alone builds the code block. *)
Theorem convert_fenced_code :
  apply fenced inline_code
    = "{{}}`py" ++ nl ++ "a" ++ nl ++ "b" ++ nl ++ "{{}}`" /\
  convert_gitlab_to_jira fenced
    = "{{}}`py" ++ nl ++ "a" ++ nl ++ "b" ++ nl ++ "{{}}`" /\
  apply fenced code_block
    = "{code:py}" ++ nl ++ "a" ++ nl ++ "b" ++ nl ++ nl ++ "{code}".
Proof. repeat split; vm_compute; reflexivity. Qed.

(** C4, at the failing input: the link rule of line 24 runs before the
    image rule of line 27 and rewrites the bracket part of the image as a
    link, so that line 27 no longer matches; on the untouched text line 27
    alone builds the image markup. *)
Theorem convert_image :
  apply "![Alt](http://x.com/i.png)" link = "![Alt|http://x.com/i.png]" /\
  convert_gitlab_to_jira "![Alt](http://x.com/i.png)"
    = "![Alt|http://x.com/i.png]" /\
  apply "![Alt](http://x.com/i.png)" image = "!http://x.com/i.png|alt=Alt!".
Proof. repeat split; vm_compute; reflexivity. Qed.

(** C7, at the failing input: the rule of line 16 also matches an indented
    item and removes its indentation, so that the rule of line 17 never
    sees two leading spaces; the indented item comes out with one hyphen.
    On the untouched line the rule of line 17 alone gives two. *)
Theorem convert_nested_item :
  convert_gitlab_to_jira "- item" = "- item" /\
  apply "  - item" unordered = "- item" /\
  convert_gitlab_to_jira "  - item" = "- item" /\
  apply "  - item" unordered_nested = "-- item".
Proof. repeat split; vm_compute; reflexivity. Qed.

(** Past the first character of the document the anchor of line 43 never
    holds, so that the scan copies what is left as it is. *)
Lemma horizontal_rule_inside (s : string) (p : ascii) :
  sub_from no_flags (pattern horizontal_rule) (replacement horizontal_rule)
    (Some p) s 0 = s.
Proof.
  revert p. induction s as [|x s IH]; intros p; [reflexivity |].
  cbn [sub_from]. unfold match_at.
  cbn [pattern horizontal_rule seq matches at_bol no_flags MULTILINE andb].
  rewrite IH. reflexivity.
Qed.

(** A document that does not start with a hyphen goes through line 43
    unchanged, whatever its other lines start with. *)
Lemma horizontal_rule_first_line_only (c : ascii) (s : string) :
  Ascii.eqb c "-" = false ->
  apply (String c s) horizontal_rule = String c s.
Proof.
  intros H. unfold apply, sub. cbn [sub_from]. unfold match_at.
  cbn [pattern horizontal_rule seq matches at_bol at_least rep may_take
       cls_matches andb].
  rewrite H. cbn. rewrite horizontal_rule_inside. reflexivity.
Qed.

(** C8, at the failing input: line 43 passes no MULTILINE flag, so that its
    anchor holds at the start of the document only; three hyphens on the
    second line stay as they are, while on the first line they become
    four. *)
Theorem convert_rule_below_first_line :
  apply rule_below horizontal_rule = rule_below /\
  convert_gitlab_to_jira rule_below = rule_below /\
  convert_gitlab_to_jira "---" = "----".
Proof. repeat split; vm_compute; reflexivity. Qed.

(** The other examples of the pattern rewriter. *)
Example convert_headers :
  convert_gitlab_to_jira "# Title" = "h1. Title" /\
  convert_gitlab_to_jira "## Title" = "h2. Title" /\
  convert_gitlab_to_jira "### Title" = "h3. Title".
Proof. repeat split; vm_compute; reflexivity. Qed.

Example convert_link :
  convert_gitlab_to_jira "[Text](http://x.com)" = "[Text|http://x.com]".
Proof. vm_compute; reflexivity. Qed.

Example convert_inline_code :
  convert_gitlab_to_jira "`code`" = "{{code}}".
Proof. vm_compute; reflexivity. Qed.

Example convert_mentions :
  convert_gitlab_to_jira "@alice" = "[~alice]" /\
  convert_gitlab_to_jira "user@domain" = "user[~domain]".
Proof. repeat split; vm_compute; reflexivity. Qed.


(** * Further properties of the list hierarchy reconstructor *)

Section ReconstructorMore.

(** [join] undoes [split]. *)
Lemma join_split (c : ascii) (s : string) :
  join (String c EmptyString) (split c s) = s.
Proof.
  induction s as [|x s IH]; [reflexivity |].
  cbn [split]. pose proof (split_nonempty c s) as Hne.
  destruct (Ascii.eqb_spec x c) as [-> | _];
    destruct (split c s) as [|h t]; try congruence.
  - change (join (String c EmptyString) (EmptyString :: h :: t))
      with (String c (join (String c EmptyString) (h :: t))).
    rewrite IH. reflexivity.
  - cbn [cons_head]. rewrite <- IH.
    destruct t; reflexivity.
Qed.

(** What [markdown_to_jira] returns splits into the lines the loop has
    appended. *)
Lemma markdown_to_jira_lines (text out : string) :
  markdown_to_jira text = Ok out ->
  exists st,
    for_lines initial (split LF text) = Ok st /\
    split LF out = jira_lines st /\
    Forall2 emitted_for (split LF text) (jira_lines st).
Proof.
  unfold markdown_to_jira.
  destruct (for_lines initial (split LF text)) as [st | e] eqn:F; simpl;
    [| discriminate].
  intros [= <-]. exists st. split; [reflexivity |].
  destruct (for_lines_appends _ _ _ F) as (outs & Ho & He & Hn).
  simpl in Ho. rewrite Ho. split; [| exact He].
  apply split_join; [| apply Hn, split_pieces].
  intros ->. inversion He as [Hnil |]. symmetry in Hnil.
  exact (split_nonempty _ _ Hnil).
Qed.

Lemma for_lines_plain (lines : list string) :
  forall st, no_list_line lines = true ->
  for_lines st lines = Ok (mkState (stack st) (jira_lines st ++ lines)).
Proof.
  induction lines as [|l lines IH]; intros st H; simpl.
  - rewrite app_nil_r. destruct st; reflexivity.
  - simpl in H. apply andb_prop in H as [Hl H].
    apply negb_true_iff in Hl.
    rewrite loop_body_plain by exact Hl. simpl.
    rewrite IH by exact H. simpl. rewrite <- app_assoc. reflexivity.
Qed.

End ReconstructorMore.

(** X2: a document with no list line comes back as it is; the empty
    document is one. *)
Theorem markdown_to_jira_plain (text : string) :
  no_list_line (split LF text) = true ->
  markdown_to_jira text = Ok text.
Proof.
  intros H. unfold markdown_to_jira.
  rewrite for_lines_plain by exact H. simpl.
  rewrite (join_split LF). reflexivity.
Qed.

Lemma markdown_to_jira_plain_witness :
  markdown_to_jira ("Title" ++ nl ++ nl ++ "10. tenth item" ++ nl)
    = Ok ("Title" ++ nl ++ nl ++ "10. tenth item" ++ nl).
Proof.
  apply (markdown_to_jira_plain
           ("Title" ++ nl ++ nl ++ "10. tenth item" ++ nl)).
  reflexivity.
Defined.

Section Nesting.


(** The loop from any stack: each list line gets at least one marker and
    at most depth + 1. *)
Lemma for_lines_bounds (lines : list string) :
  forall st st',
  for_lines st lines = Ok st' ->
  exists outs,
    jira_lines st' = (jira_lines st ++ outs)%list /\
    Forall2 (fun line o =>
               is_list_line line = true ->
               exists n, 1 <= n <= depth_of line + 1 /\ list_item line n o)
            lines outs.
Proof.
  induction lines as [|l lines IH]; intros st st' F; simpl in F.
  - injection F as <-. exists []. rewrite app_nil_r. split; constructor.
  - destruct (loop_body st l) as [st1 | e] eqn:B; simpl in F; [| discriminate].
    destruct (IH _ _ F) as (outs & Ho & Hf).
    destruct (is_list_line l) eqn:E.
    + rewrite loop_body_list in B by exact E.
      destruct (index (split_once " " (stripped_of l)) 1) as [r | e] eqn:I;
        simpl in B; [| discriminate].
      injection B as <-. cbn [jira_lines] in Ho. rewrite <- app_assoc in Ho.
      eexists. split; [exact Ho |].
      constructor; [| exact Hf]. intros _.
      exists (S (List.length (pop_deeper (depth_of l) (stack st)))).
      split; [rewrite pop_deeper_length; lia |].
      exists r. split; [exact I | reflexivity].
    + rewrite loop_body_plain in B by exact E. injection B as <-.
      cbn [jira_lines] in Ho. rewrite <- app_assoc in Ho.
      eexists. split; [exact Ho |].
      constructor; [congruence | exact Hf].
Qed.

End Nesting.



(** X4: whatever the document, a list line never comes out without a
    marker and never with more than depth + 1 of them. *)
Theorem marker_run_bounds (text out : string) :
  markdown_to_jira text = Ok out ->
  Forall2 (fun line o =>
             is_list_line line = true ->
             exists n, 1 <= n <= depth_of line + 1 /\ list_item line n o)
          (split LF text) (split LF out).
Proof.
  intros H.
  destruct (markdown_to_jira_lines _ _ H) as (st & F & Hs & _).
  destruct (for_lines_bounds _ _ _ F) as (outs & Ho & Hf).
  rewrite Hs, Ho. exact Hf.
Qed.

Lemma marker_run_bounds_witness :
  Forall2 (fun line o =>
             is_list_line line = true ->
             exists n, 1 <= n <= depth_of line + 1 /\ list_item line n o)
          (split LF ("      - deep" ++ nl ++ "text" ++ nl ++ "  1. one"))
          (split LF ("- deep" ++ nl ++ "text" ++ nl ++ "## one")).
Proof.
  apply (marker_run_bounds
           ("      - deep" ++ nl ++ "text" ++ nl ++ "  1. one")).
  reflexivity.
Defined.

(** X5: a line whose text starts with two digits, as the tenth item of
    an ordered list does, is no list line: the loop copies it with its
    indentation and leaves the stack as it is. *)
Theorem two_digit_ordinal_is_plain
    (st : state) (line rest : string) (d1 d2 : ascii) :
  stripped_of line = String d1 (String d2 rest) ->
  isdigit d1 = true ->
  isdigit d2 = true ->
  loop_body st line = Ok (mkState (stack st) (jira_lines st ++ [line])).
Proof.
  intros Hs H1 H2. apply loop_body_plain.
  unfold is_list_line, is_ordered, is_unordered. rewrite Hs.
  unfold startswith_any, startswith, ordered_prefixes, unordered_prefixes.
  cbn [existsb prefix].
  destruct (ascii_dec "." d2) as [<- | _]; [vm_compute in H2; discriminate |].
  destruct (ascii_dec "-" d1) as [<- | _]; [vm_compute in H1; discriminate |].
  destruct (ascii_dec "*" d1) as [<- | _]; [vm_compute in H1; discriminate |].
  destruct (ascii_dec "+" d1) as [<- | _]; [vm_compute in H1; discriminate |].
  repeat match goal with
         | |- context [ascii_dec ?a d1] => destruct (ascii_dec a d1) as [_ | _]
         end;
    reflexivity.
Qed.

Lemma two_digit_ordinal_is_plain_witness :
  loop_body (mkState ["#"] ["# ninth"]) "10. tenth"
    = Ok (mkState ["#"] ["# ninth"; "10. tenth"]).
Proof.
  apply (two_digit_ordinal_is_plain (mkState ["#"] ["# ninth"])
           "10. tenth" ". tenth" "1" "0"); reflexivity.
Defined.

Section PlainLines.

(** The loop on the list lines alone, from the same stack: it ends with
    the same stack and has appended what the full run appended for the
    list lines. *)
Lemma for_lines_filter (lines : list string) :
  forall st st1 acc,
  for_lines st lines = Ok st1 ->
  exists outs,
    jira_lines st1 = (jira_lines st ++ outs)%list /\
    for_lines (mkState (stack st) acc) (filter is_list_line lines)
      = Ok (mkState (stack st1) (acc ++ list_outputs lines outs)).
Proof.
  induction lines as [|l lines IH]; intros st st1 acc F; simpl in F.
  - injection F as <-. exists []. rewrite !app_nil_r. split; reflexivity.
  - destruct (loop_body st l) as [st' | e] eqn:B; simpl in F; [| discriminate].
    cbn [filter]. destruct (is_list_line l) eqn:E.
    + rewrite loop_body_list in B by exact E.
      cbn [for_lines]. rewrite loop_body_list by exact E.
      destruct (index (split_once " " (stripped_of l)) 1) as [r | e] eqn:I;
        simpl in B; [| discriminate].
      injection B as <-. cbn [bind stack].
      destruct (IH _ _ (acc ++ [(marker_run (list_char_of l)
                                   (list_char_of l ::
                                    pop_deeper (depth_of l) (stack st))
                                 ++ " " ++ r)%string])%list F)
        as (outs & Ho & Hf).
      cbn [jira_lines stack] in Ho, Hf. rewrite <- app_assoc in Ho.
      eexists. split; [exact Ho |].
      cbn [jira_lines]. rewrite Hf. unfold list_outputs.
      cbn [app combine filter fst]. rewrite E. cbn [map snd].
      rewrite <- app_assoc. reflexivity.
    + rewrite loop_body_plain in B by exact E. injection B as <-.
      destruct (IH _ _ acc F) as (outs & Ho & Hf).
      cbn [jira_lines stack] in Ho, Hf. rewrite <- app_assoc in Ho.
      eexists. split; [exact Ho |].
      rewrite Hf. unfold list_outputs. cbn [app combine filter fst].
      rewrite E. reflexivity.
Qed.

End PlainLines.

(** X6: the lines that are no list lines have no part in the nesting.
    With them deleted from a document that [markdown_to_jira] converts,
    the function returns the former output with the same lines deleted:
    every list line keeps its markers. *)
Theorem plain_lines_keep_nesting (text out : string) :
  filter is_list_line (split LF text) <> [] ->
  markdown_to_jira text = Ok out ->
  markdown_to_jira (join nl (filter is_list_line (split LF text)))
    = Ok (join nl (list_outputs (split LF text) (split LF out))).
Proof.
  intros Hne H.
  destruct (markdown_to_jira_lines _ _ H) as (st & F & Hs & _).
  destruct (for_lines_filter _ _ _ [] F) as (outs & Ho & Hf).
  change (mkState (stack initial) []) with initial in Hf.
  simpl in Ho, Hf. unfold markdown_to_jira.
  replace (split LF (join nl (filter is_list_line (split LF text))))
    with (filter is_list_line (split LF text)).
  - rewrite Hf. simpl. rewrite Hs, Ho. reflexivity.
  - symmetry. apply split_join; [exact Hne |].
    apply incl_Forall with (l1 := split LF text);
      [apply incl_filter | apply split_pieces].
Qed.

Lemma plain_lines_keep_nesting_witness :
  markdown_to_jira
    (join nl (filter is_list_line
                (split LF ("1. a" ++ nl ++ "text" ++ nl ++ "  - b"))))
  = Ok (join nl (list_outputs
                   (split LF ("1. a" ++ nl ++ "text" ++ nl ++ "  - b"))
                   (split LF ("# a" ++ nl ++ "text" ++ nl ++ "-- b")))).
Proof.
  apply (plain_lines_keep_nesting
           ("1. a" ++ nl ++ "text" ++ nl ++ "  - b")
           ("# a" ++ nl ++ "text" ++ nl ++ "-- b"));
    [vm_compute; discriminate | reflexivity].
Defined.

(** X7: what the script of lines 37 to 49 prints.  The nested items come
    out with as many markers as they are deep, all of them of the item's
    own kind: the items under an ordered item start with hyphens only. *)
Theorem script_output :
  jira_text =
    Ok (nl ++ "# First item" ++ nl ++
        "-- Nested unordered item 1" ++ nl ++
        "-- Nested unordered item 2" ++ nl ++
        "### Nested ordered item 1" ++ nl ++
        "### Nested ordered item 2" ++ nl ++
        "# Second item" ++ nl ++
        "-- Nested unordered item 3" ++ nl).
Proof. reflexivity. Qed.


(** * Further properties of the pattern rewriter *)

(** ** When a pattern cannot match *)

Section NoMatch.

Variable f : flags.
Variable bad : ascii -> bool.

Lemma in_all_chars (x : ascii) : In x all_chars.
Proof.
  unfold all_chars. rewrite <- (ascii_nat_embedding x).
  apply in_map, in_seq. pose proof (nat_ascii_bounded x). lia.
Qed.

Lemma cls_within_spec (c : cls) (x : ascii) :
  cls_within f bad c = true -> cls_matches f c x = true -> bad x = true.
Proof.
  unfold cls_within. rewrite forallb_forall. intros H M.
  specialize (H x (in_all_chars x)). rewrite M in H. exact H.
Qed.

Lemma lacks_tail (x : ascii) (s : string) :
  lacks bad (String x s) = true -> bad x = false /\ lacks bad s = true.
Proof.
  simpl. intros H. apply andb_prop in H as [H1 H2].
  apply negb_true_iff in H1. split; assumption.
Qed.

(** A repetition fails when its continuation fails on every text that
    lacks the characters. *)
Lemma rep_fails (c : cls) (g : bool) (k : option ascii -> string -> option hit) :
  (forall p s, lacks bad s = true -> k p s = None) ->
  forall s lo hi p, lacks bad s = true -> rep f c g lo hi k p s = None.
Proof.
  intros Hk. induction s as [|x s IH]; intros lo hi p L.
  - cbn [rep]. rewrite (Hk p EmptyString L).
    destruct g, lo; reflexivity.
  - cbn [rep]. rewrite (Hk p _ L).
    destruct (lacks_tail _ _ L) as [_ L'].
    rewrite (IH (pred lo) (dec hi) (Some x) L').
    destruct g, lo, (may_take hi && cls_matches f c x); reflexivity.
Qed.

(** So does any pattern. *)
Lemma matches_fails (r : regex) :
  forall k,
  (forall p s caps, lacks bad s = true -> k p s caps = None) ->
  forall p s caps, lacks bad s = true -> matches f r k p s caps = None.
Proof.
  induction r as [| | | c | c lo hi g | r1 IH1 | r1 IH1 r2 IH2];
    intros k Hk p s caps L; cbn [matches].
  - apply Hk, L.
  - rewrite (Hk _ _ _ L). destruct (at_bol f p); reflexivity.
  - rewrite (Hk _ _ _ L). destruct (at_eol f s); reflexivity.
  - destruct s as [|x s]; [reflexivity |].
    destruct (lacks_tail _ _ L) as [_ L'].
    rewrite (Hk _ _ _ L'). destruct (cls_matches f c x); reflexivity.
  - apply rep_fails; [| exact L]. intros; apply Hk; assumption.
  - apply IH1; [| exact L]. intros; apply Hk; assumption.
  - apply IH1; [| exact L]. intros; apply IH2; assumption.
Qed.

(** A pattern that needs one of the characters fails on a text that
    lacks them, whatever comes after the pattern. *)
Lemma matches_needs (r : regex) :
  needs f bad r = true ->
  forall k p s caps, lacks bad s = true -> matches f r k p s caps = None.
Proof.
  induction r as [| | | c | c lo hi g | r1 IH1 | r1 IH1 r2 IH2];
    cbn [needs]; intros N k p s caps L; try discriminate; cbn [matches].
  - destruct s as [|x s]; [reflexivity |].
    destruct (lacks_tail _ _ L) as [B _].
    destruct (cls_matches f c x) eqn:M; [| reflexivity].
    rewrite (cls_within_spec _ _ N M) in B. discriminate.
  - destruct lo as [|lo]; [discriminate |].
    destruct s as [|x s]; cbn [rep]; [destruct g; reflexivity |].
    destruct (lacks_tail _ _ L) as [B _].
    destruct (cls_matches f c x) eqn:M.
    + rewrite (cls_within_spec _ _ N M) in B. discriminate.
    + rewrite andb_false_r. destruct g; reflexivity.
  - apply IH1; assumption.
  - apply orb_prop in N as [N | N].
    + apply IH1; assumption.
    + apply matches_fails; [| exact L]. intros; apply IH2; assumption.
Qed.

(** The scan copies a text in which the pattern matches nowhere. *)
Lemma sub_from_no_match (r : regex) (repl : list piece) (Q : option ascii -> string -> Prop) :
  (forall p x s, Q p (String x s) -> Q (Some x) s) ->
  (forall p s, Q p s -> match_at f r p s = None) ->
  forall s p, Q p s -> sub_from f r repl p s 0 = s.
Proof.
  intros Qt Qm. induction s as [|x s IH]; intros p H; cbn [sub_from].
  - rewrite (Qm _ _ H). reflexivity.
  - rewrite (Qm _ _ H). rewrite (IH _ (Qt _ _ _ H)). reflexivity.
Qed.

Lemma sub_from_needs (r : regex) (repl : list piece) :
  needs f bad r = true ->
  forall s p, lacks bad s = true -> sub_from f r repl p s 0 = s.
Proof.
  intros N s p L.
  apply (sub_from_no_match r repl (fun _ s => lacks bad s = true)).
  - intros _ x s' H. apply (lacks_tail _ _ H).
  - intros p' s' H. apply matches_needs; assumption.
  - exact L.
Qed.

End NoMatch.

(** One [re.sub] line leaves a text as it is when its pattern needs a
    character that the text lacks. *)
Lemma apply_unchanged (bad : ascii -> bool) (r : rule) (s : string) :
  needs (mode r) bad (pattern r) = true ->
  lacks bad s = true ->
  apply s r = s.
Proof. intros N L. unfold apply, sub. apply (sub_from_needs _ bad); assumption. Qed.

Section Unchanged.

Lemma fold_unchanged (rs : list rule) (s : string) :
  Forall (fun r => apply s r = s) rs -> fold_left apply rs s = s.
Proof.
  induction 1 as [|r rs Hr _ IH]; simpl; [reflexivity |].
  rewrite Hr. exact IH.
Qed.

Lemma lacks_app (bad : ascii -> bool) (a b : string) :
  lacks bad (a ++ b) = lacks bad a && lacks bad b.
Proof.
  induction a as [|x a IH]; simpl; [reflexivity |].
  rewrite IH, andb_assoc. reflexivity.
Qed.

Lemma lacks_weaken (bad bad' : ascii -> bool) (s : string) :
  (forall x, bad x = true -> bad' x = true) ->
  lacks bad' s = true -> lacks bad s = true.
Proof.
  intros Hb. induction s as [|x s IH]; simpl; [reflexivity |].
  intros H. apply andb_prop in H as [H1 H2]. rewrite (IH H2), andb_true_r.
  destruct (bad x) eqn:B; [| reflexivity].
  rewrite (Hb _ B) in H1. discriminate.
Qed.

Lemma lacks_count (c : ascii) (s : string) :
  lacks (is_char c) s = true <-> count c s = 0.
Proof.
  unfold is_char. induction s as [|x s IH]; simpl; [tauto |].
  destruct (Ascii.eqb x c); simpl; [split; discriminate | exact IH].
Qed.

(** On a text each line of which is empty or starts with neither white
    space nor a digit, white space read from the start of a line ends at
    the start of a line. *)
Lemma rep_space_plain (f : flags) (k : option ascii -> string -> option hit) :
  (forall p s, lines_start_plain true s = true -> k p s = None) ->
  forall s g lo hi p,
  lines_start_plain true s = true -> rep f Space g lo hi k p s = None.
Proof.
  intros Hk. induction s as [|x s IH]; intros g lo hi p L; cbn [rep].
  - rewrite (Hk p _ L). destruct g, lo; reflexivity.
  - rewrite (Hk p _ L). cbn [lines_start_plain negb orb] in L.
    apply andb_prop in L as [L1 L2]. cbn [cls_matches].
    destruct (isspace x) eqn:S.
    + cbn [orb negb] in L1. rewrite orb_false_r in L1. rewrite L1 in L2.
      rewrite (IH g (pred lo) (dec hi) (Some x) L2).
      destruct g, lo, (may_take hi); reflexivity.
    + rewrite andb_false_r. destruct g, lo; reflexivity.
Qed.

Lemma digit_owed_fails (f : flags) (g : bool) (lo : nat) (hi : option nat)
    (k : option ascii -> string -> option hit) (p : option ascii) (s : string) :
  lines_start_plain true s = true -> rep f Digit g (S lo) hi k p s = None.
Proof.
  intros L. destruct s as [|x s]; cbn [rep]; [destruct g; reflexivity |].
  cbn [lines_start_plain negb orb] in L. apply andb_prop in L as [L1 _].
  assert (D : isdigit x = false).
  { destruct (Ascii.eqb_spec x LF) as [-> | _]; [reflexivity |].
    cbn [orb] in L1. apply negb_true_iff, orb_false_iff in L1. apply L1. }
  cbn [cls_matches]. rewrite D, andb_false_r. destruct g; reflexivity.
Qed.

(** The two patterns of the ordered items match nowhere in such a text. *)
Lemma ordered_no_match (p : option ascii) (s : string) :
  lines_start_plain (at_bol re_MULTILINE p) s = true ->
  match_at re_MULTILINE (pattern ordered) p s = None /\
  match_at re_MULTILINE (pattern ordered_nested) p s = None.
Proof.
  intros L. unfold match_at.
  cbv [pattern ordered ordered_nested seq star plus chr any at_least].
  cbn [matches]. destruct (at_bol re_MULTILINE p); [| split; reflexivity].
  split; apply rep_space_plain; try exact L;
    intros p' s' L'; apply digit_owed_fails; exact L'.
Qed.

Lemma lines_start_plain_tail (b : bool) (x : ascii) (s : string) :
  lines_start_plain b (String x s) = true ->
  lines_start_plain (Ascii.eqb x LF) s = true.
Proof. cbn [lines_start_plain]. intros H. apply andb_prop in H. apply H. Qed.

Lemma ordered_unchanged (s : string) :
  lines_start_plain true s = true ->
  apply s ordered = s /\ apply s ordered_nested = s.
Proof.
  intros L. unfold apply, sub. split;
    apply (sub_from_no_match _ _ _
             (fun p s => lines_start_plain (at_bol re_MULTILINE p) s = true));
    try exact L;
    try (intros p x s' H; exact (lines_start_plain_tail _ _ _ H));
    intros p s' H; apply (ordered_no_match p s' H).
Qed.

End Unchanged.

(** X8: a text with no digit and none of the ten punctuation characters
    that the patterns start from goes through all the rules unchanged,
    whatever its line breaks and its indentation. *)
Theorem convert_plain (text : string) :
  lacks is_markup text = true ->
  convert_gitlab_to_jira text = text.
Proof.
  intros L. unfold convert_gitlab_to_jira. apply fold_unchanged.
  unfold rules.
  repeat constructor;
    (apply (apply_unchanged is_markup); [vm_compute; reflexivity | exact L]).
Qed.

Lemma convert_plain_witness :
  convert_gitlab_to_jira ("Hello, world!" ++ nl ++ "  (indented) text.")
    = "Hello, world!" ++ nl ++ "  (indented) text.".
Proof.
  apply (convert_plain ("Hello, world!" ++ nl ++ "  (indented) text.")).
  reflexivity.
Defined.

(** X9: digits do no harm where no line starts with them: a text with
    none of the ten punctuation characters, each line of which is empty
    or starts with a character that is neither white space nor a digit,
    goes through all the rules unchanged. *)
Theorem convert_prose (text : string) :
  lacks is_symbol text = true ->
  lines_start_plain true text = true ->
  convert_gitlab_to_jira text = text.
Proof.
  intros L P. unfold convert_gitlab_to_jira. apply fold_unchanged.
  unfold rules.
  repeat constructor;
    first [ apply (apply_unchanged is_symbol);
            [vm_compute; reflexivity | exact L]
          | apply (ordered_unchanged text P) ].
Qed.

Lemma convert_prose_witness :
  convert_gitlab_to_jira
    ("Version 2.0 is out." ++ nl ++ nl ++ "See page 3. 4 fixes.")
  = "Version 2.0 is out." ++ nl ++ nl ++ "See page 3. 4 fixes.".
Proof.
  apply (convert_prose
           ("Version 2.0 is out." ++ nl ++ nl ++ "See page 3. 4 fixes."));
    reflexivity.
Defined.

(** ** When a pattern matches *)

Section Match.

Variable f : flags.

Lemma append_empty (s : string) : s ++ EmptyString = s.
Proof. induction s as [|x s IH]; simpl; [| rewrite IH]; reflexivity. Qed.

Lemma append_assoc (a b c : string) : (a ++ b) ++ c = a ++ b ++ c.
Proof. induction a as [|x a IH]; simpl; [| rewrite IH]; reflexivity. Qed.

Lemma length_app (a b : string) :
  String.length (a ++ b) = String.length a + String.length b.
Proof. induction a as [|x a IH]; simpl; [| rewrite IH]; reflexivity. Qed.

Lemma substring_prefix (a b : string) :
  substring 0 (String.length a) (a ++ b) = a.
Proof.
  induction a as [|x a IH]; simpl; [destruct b | rewrite IH]; reflexivity.
Qed.

(** What a group captures. *)
Lemma consumed_app (a b : string) : consumed (a ++ b) b = a.
Proof.
  unfold consumed. rewrite length_app.
  replace (String.length a + String.length b - String.length b)
    with (String.length a) by lia.
  apply substring_prefix.
Qed.

Lemma consumed_all (a : string) : consumed a EmptyString = a.
Proof.
  rewrite <- (append_empty a) at 1. apply consumed_app.
Qed.

(** Literal text in a pattern reads itself. *)
Lemma lit_app (o : string) :
  forall k p s caps,
  matches f (lit o) k p (o ++ s) caps = k (prev_after p o) s caps.
Proof.
  induction o as [|a o IH]; intros k p s caps; [reflexivity |].
  cbn [lit chr matches append cls_matches prev_after].
  rewrite Ascii.eqb_refl. apply IH.
Qed.

(** Literal text fails on another first character. *)
Lemma lit_fails (a x : ascii) (o s : string) :
  Ascii.eqb x a = false ->
  forall k p caps, matches f (lit (String a o)) k p (String x s) caps = None.
Proof.
  intros H k p caps. cbn [lit chr matches cls_matches]. rewrite H.
  reflexivity.
Qed.

(** A lazy repetition goes over the characters on which its
    continuation fails. *)
Lemma rep_lazy_run (c : cls) (stopper : ascii -> bool)
    (k : option ascii -> string -> option hit) (rest : string) :
  (forall p x s, stopper x = false -> k p (String x s) = None) ->
  forall run p,
  lacks (fun x => negb (cls_matches f c x)) run = true ->
  lacks stopper run = true ->
  rep f c false 0 None k p (run ++ rest)
    = rep f c false 0 None k (prev_after p run) rest.
Proof.
  intros Hk. induction run as [|x run IH]; intros p M S; [reflexivity |].
  apply lacks_tail in M as [M1 M2]. apply lacks_tail in S as [S1 S2].
  apply negb_false_iff in M1.
  cbn [append prev_after]. rewrite <- (IH (Some x) M2 S2).
  set (R := rep f c false 0 None k (Some x) (run ++ rest)).
  cbn [rep]. rewrite (Hk p x _ S1), M1. reflexivity.
Qed.

(** A greedy repetition goes over all the characters it can read when
    the rest of the pattern matches after them. *)
Lemma rep_greedy_run (c : cls) (k : option ascii -> string -> option hit)
    (rest : string) (h : hit) :
  forall run lo p,
  lacks (fun x => negb (cls_matches f c x)) run = true ->
  rep f c true (lo - String.length run) None k (prev_after p run) rest
    = Some h ->
  rep f c true lo None k p (run ++ rest) = Some h.
Proof.
  induction run as [|x run IH]; intros lo p M H.
  - simpl in H. rewrite Nat.sub_0_r in H. exact H.
  - apply lacks_tail in M as [M1 M2]. apply negb_false_iff in M1.
    cbn [append]. cbn [rep]. rewrite M1. cbn [may_take andb dec option_map].
    rewrite (IH (pred lo) (Some x) M2); [reflexivity |].
    cbn [String.length prev_after] in H.
    replace (pred lo - String.length run)
      with (lo - S (String.length run)) by lia.
    exact H.
Qed.

(** A greedy repetition stops before a character it cannot read, and at
    the end of the text. *)
Lemma rep_greedy_stop (c : cls) (k : option ascii -> string -> option hit)
    (p : option ascii) (s : string) :
  starts_without (cls_matches f c) s = true ->
  rep f c true 0 None k p s = k p s.
Proof.
  destruct s as [|x s]; cbn [starts_without rep]; [reflexivity |].
  intros H. apply negb_true_iff in H. rewrite H. reflexivity.
Qed.

(** The scan after a match that goes to the end of the text. *)
Lemma sub_from_skip (r : regex) (repl : list piece) :
  needs f (fun _ => true) r = true ->
  forall s p, sub_from f r repl p s (String.length s) = EmptyString.
Proof.
  intros N. induction s as [|x s IH]; intros p; cbn [sub_from String.length].
  - unfold match_at.
    rewrite (matches_needs f (fun _ => true) r N); reflexivity.
  - apply IH.
Qed.

(** The scan at a match that goes from the position to the end of the
    text. *)
Lemma sub_from_whole (r : regex) (repl : list piece) (p : option ascii)
    (s : string) (caps : list string) :
  needs f (fun _ => true) r = true ->
  s <> EmptyString ->
  match_at f r p s = Some (caps, EmptyString) ->
  sub_from f r repl p s 0 = expand repl caps.
Proof.
  intros N. destruct s as [|x s]; [congruence |]. intros _ H.
  cbn [sub_from]. rewrite H. cbn [String.length Nat.sub].
  rewrite (sub_from_skip _ _ N). apply append_empty.
Qed.

(** A pattern that starts with the anchor matches nowhere past the start
    of a text of one line. *)
Lemma sub_from_anchored (r : regex) (repl : list piece) :
  anchored r = true ->
  forall s p,
  count LF s = 0 ->
  match p with
  | None => match_at f r None s = None
  | Some x => Ascii.eqb x LF = false
  end ->
  sub_from f r repl p s 0 = s.
Proof.
  intros A s p N H.
  apply (sub_from_no_match f r repl
           (fun p s => count LF s = 0 /\
                       match p with
                       | None => match_at f r None s = None
                       | Some x => Ascii.eqb x LF = false
                       end)); [| | split; assumption].
  - intros _ x s' [N' _]. simpl in N'.
    destruct (Ascii.eqb x LF); [discriminate |]. split; [exact N' | reflexivity].
  - intros [x |] s' [_ H']; [| exact H'].
    destruct r as [| | | | | |r1 r2]; try discriminate.
    destruct r1; try discriminate.
    unfold match_at. cbn [matches at_bol]. rewrite H', andb_false_r.
    reflexivity.
Qed.

End Match.

(** One [re.sub] line whose pattern starts with the anchor leaves a text
    of one line as it is when the pattern does not match at its start. *)
Lemma apply_anchored (r : rule) (s : string) :
  anchored (pattern r) = true ->
  count LF s = 0 ->
  match_at (mode r) (pattern r) None s = None ->
  apply s r = s.
Proof.
  intros A N H. unfold apply, sub. apply sub_from_anchored; assumption.
Qed.

(** One [re.sub] line at a match of the whole text. *)
Lemma apply_whole (r : rule) (s : string) (caps : list string) :
  needs (mode r) (fun _ => true) (pattern r) = true ->
  s <> EmptyString ->
  match_at (mode r) (pattern r) None s = Some (caps, EmptyString) ->
  apply s r = expand (replacement r) caps.
Proof. intros. unfold apply, sub. apply sub_from_whole; assumption. Qed.

(** ** Going through the rules one by one *)

Section Steps.

Lemma fold_step (r : rule) (rs : list rule) (s s' res : string) :
  apply s r = s' ->
  fold_left apply rs s' = res ->
  fold_left apply (r :: rs) s = res.
Proof. intros <- <-. reflexivity. Qed.

Lemma lacks_symbol (c : ascii) (t : string) :
  is_symbol c = true ->
  lacks is_symbol t = true ->
  lacks (is_char c) t = true.
Proof.
  intros C. apply lacks_weaken. intros x H.
  apply Ascii.eqb_eq in H. subst x. exact C.
Qed.

(** The dot reads every character of a text of one line. *)
Lemma dot_run (f : flags) (t : string) :
  count LF t = 0 ->
  lacks (fun x => negb (cls_matches f Dot x)) t = true.
Proof.
  induction t as [|x t IH]; simpl; [reflexivity |].
  destruct (Ascii.eqb x LF); simpl; [discriminate |].
  intros H. rewrite orb_true_r. simpl. exact (IH H).
Qed.

Lemma rep_lazy_stop (f : flags) (c : cls)
    (k : option ascii -> string -> option hit) (p : option ascii)
    (s : string) (h : hit) :
  k p s = Some h -> rep f c false 0 None k p s = Some h.
Proof. intros H. destruct s; cbn [rep]; rewrite H; reflexivity. Qed.

(** The pattern of a span, an opening, the lazy group and a closing,
    matches the opening, a text of one line without the first character
    of the closing, and the closing; the group captures the text. *)
Lemma span_match (o l r t : string) (c0 : ascii) (c' : string)
    (p : option ascii) :
  count LF t = 0 ->
  lacks (is_char c0) t = true ->
  match_at no_flags (pattern (span o (String c0 c') l r)) p
    (o ++ t ++ String c0 c')
  = Some ([t], EmptyString).
Proof.
  intros N S. unfold match_at.
  cbv [pattern span seq few lazy_star]. cbn [matches].
  rewrite lit_app. cbn [matches].
  rewrite (rep_lazy_run no_flags Dot (is_char c0)).
  - apply rep_lazy_stop. cbn [matches app].
    rewrite <- (append_empty (String c0 c')) at 2.
    rewrite lit_app. cbn [matches]. rewrite consumed_app. reflexivity.
  - intros p' x s H. cbn [matches]. apply lit_fails. exact H.
  - apply dot_run, N.
  - exact S.
Qed.

End Steps.

(** A rule whose pattern needs the character [c], on a text without it. *)
Ltac lacks_goal c :=
  rewrite ?lacks_app;
  repeat match goal with
         | L : lacks is_symbol ?t = true |- context [lacks (is_char c) ?t] =>
             rewrite (lacks_symbol c t eq_refl L)
         | L : lacks (is_char c) ?t = true |- context [lacks (is_char c) ?t] =>
             rewrite L
         end;
  reflexivity.

Ltac keep c :=
  eapply fold_step;
  [ apply (apply_unchanged (is_char c));
    [vm_compute; reflexivity | lacks_goal c] | ].

Ltac count_goal :=
  rewrite ?count_app;
  repeat match goal with
         | N : count LF ?t = 0 |- context [count LF ?t] => rewrite N
         end;
  reflexivity.

(** A rule whose pattern starts with the anchor and fails at the start of
    the text, which has one line. *)
Ltac keep_anchored :=
  eapply fold_step;
  [ apply apply_anchored; [reflexivity | count_goal | reflexivity] | ].

(** X12: bold text of one line comes out as emphasis.  Line 10 turns the
    two stars on each side into one, line 12 turns these into
    underscores, and no later rule changes the result. *)
Theorem convert_bold_text (t : string) :
  lacks is_symbol t = true ->
  count LF t = 0 ->
  convert_gitlab_to_jira ("**" ++ t ++ "**") = "_" ++ t ++ "_".
Proof.
  intros L N. unfold convert_gitlab_to_jira, rules.
  keep "#"%char. keep "#"%char. keep "#"%char.
  eapply fold_step.
  { apply (apply_whole bold _ [t]); [reflexivity | discriminate |].
    apply span_match; [exact N | lacks_goal "*"%char]. }
  cbn [expand replacement bold span nth pred].
  keep "_"%char.
  eapply fold_step.
  { apply (apply_whole emphasis ("*" ++ t ++ "*" ++ EmptyString) [t]);
      [reflexivity | discriminate |].
    rewrite append_empty.
    apply (span_match "*" "_" "_" t "*" EmptyString);
      [exact N | lacks_goal "*"%char]. }
  cbn [expand replacement emphasis span nth pred].
  eapply fold_step.
  { apply (apply_whole emphasis_underscore ("_" ++ t ++ "_" ++ EmptyString) [t]);
      [reflexivity | discriminate |].
    rewrite append_empty.
    apply (span_match "_" "_" "_" t "_" EmptyString);
      [exact N | lacks_goal "_"%char]. }
  cbn [expand replacement emphasis_underscore span nth pred].
  rewrite append_empty.
  keep "-"%char. keep "-"%char.
  keep_anchored. keep_anchored.
  keep "["%char. keep "["%char.
  keep "`"%char. keep "`"%char.
  keep ">"%char.
  keep "|"%char. keep "|"%char.
  keep "-"%char.
  keep "~"%char.
  keep "@"%char.
  reflexivity.
Qed.

Lemma convert_bold_text_witness :
  convert_gitlab_to_jira ("**" ++ "very bold" ++ "**") = "_" ++ "very bold" ++ "_".
Proof. apply (convert_bold_text "very bold"); reflexivity. Defined.

Section HeaderMatch.

(** The pattern of a header matches the hashes, a space and a title of
    one line that starts with no white space; the group captures the
    title. *)
Lemma header_match (hashes prefix t : string) :
  count LF t = 0 ->
  starts_without isspace t = true ->
  match_at re_MULTILINE (pattern (header hashes prefix)) None
    (hashes ++ " " ++ t)
  = Some ([t], EmptyString).
Proof.
  intros N W. unfold match_at.
  cbv [pattern header seq plus any star]. cbn [matches at_bol].
  rewrite lit_app. cbn [matches].
  apply rep_greedy_run; [reflexivity |].
  cbn [String.length Nat.sub prev_after].
  rewrite rep_greedy_stop by exact W.
  rewrite <- (append_empty t) at 1.
  apply rep_greedy_run; [apply dot_run, N |].
  rewrite Nat.sub_0_l. cbn [rep matches at_eol app].
  rewrite consumed_all. reflexivity.
Qed.

End HeaderMatch.

(** The rules after the headers, on a header line of the output. *)
Ltac after_header :=
  keep "*"%char; keep "_"%char; keep "*"%char; keep "_"%char;
  keep "-"%char; keep "-"%char;
  keep_anchored; keep_anchored;
  keep "["%char; keep "["%char;
  keep "`"%char; keep "`"%char;
  keep ">"%char;
  keep "|"%char; keep "|"%char;
  keep "-"%char;
  keep "~"%char;
  keep "@"%char;
  reflexivity.

(** X11: a header line of one, two or three hashes, a space and a title
    comes out as the header of that level and the title, for every title
    of one line that has none of the ten punctuation characters and
    starts with no white space; digits in the title are kept. *)
Theorem convert_header (t : string) :
  lacks is_symbol t = true ->
  count LF t = 0 ->
  starts_without isspace t = true ->
  convert_gitlab_to_jira ("#" ++ " " ++ t) = "h1. " ++ t /\
  convert_gitlab_to_jira ("##" ++ " " ++ t) = "h2. " ++ t /\
  convert_gitlab_to_jira ("###" ++ " " ++ t) = "h3. " ++ t.
Proof.
  intros L N W. unfold convert_gitlab_to_jira, rules. repeat split.
  - eapply fold_step.
    { apply (apply_whole (header "#" "h1. ") _ [t]);
        [reflexivity | discriminate | apply header_match; assumption]. }
    cbn [expand replacement header nth pred]. rewrite append_empty.
    keep "#"%char. keep "#"%char. after_header.
  - keep_anchored.
    eapply fold_step.
    { apply (apply_whole (header "##" "h2. ") _ [t]);
        [reflexivity | discriminate | apply header_match; assumption]. }
    cbn [expand replacement header nth pred]. rewrite append_empty.
    keep "#"%char. after_header.
  - keep_anchored. keep_anchored.
    eapply fold_step.
    { apply (apply_whole (header "###" "h3. ") _ [t]);
        [reflexivity | discriminate | apply header_match; assumption]. }
    cbn [expand replacement header nth pred]. rewrite append_empty.
    after_header.
Qed.

Lemma convert_header_witness :
  convert_gitlab_to_jira ("#" ++ " " ++ "Release 2.0") = "h1. " ++ "Release 2.0" /\
  convert_gitlab_to_jira ("##" ++ " " ++ "Release 2.0") = "h2. " ++ "Release 2.0" /\
  convert_gitlab_to_jira ("###" ++ " " ++ "Release 2.0") = "h3. " ++ "Release 2.0".
Proof. apply (convert_header "Release 2.0"); reflexivity. Defined.

Section ItemMatch.

Lemma chr_app (f : flags) (c : ascii) (s : string)
    (k : option ascii -> string -> list string -> option hit)
    (p : option ascii) (caps : list string) :
  matches f (One (Lit c)) k p (String c EmptyString ++ s) caps
    = k (Some c) s caps.
Proof. cbn [matches cls_matches append]. rewrite Ascii.eqb_refl. reflexivity. Qed.

(** The end of the patterns of the items and of the quotes: white space,
    the greedy group and the end of the line, on a space and a text of
    one line that starts with no white space. *)
Lemma tail_match (t : string) (p : option ascii) (caps : list string) :
  count LF t = 0 ->
  starts_without isspace t = true ->
  matches re_MULTILINE (seq [plus Space; any; Eol])
    (fun _ s' caps' => Some (caps', s')) p (" " ++ t) caps
  = Some ((caps ++ [t])%list, EmptyString).
Proof.
  intros N W. cbv [seq plus any star]. cbn [matches].
  apply rep_greedy_run; [reflexivity |].
  cbn [String.length Nat.sub prev_after].
  rewrite rep_greedy_stop by exact W.
  rewrite <- (append_empty t) at 1.
  apply rep_greedy_run; [apply dot_run, N |].
  rewrite Nat.sub_0_l. cbn [rep matches at_eol].
  rewrite consumed_all. reflexivity.
Qed.

(** None of the ten punctuation characters is white space, a digit or a
    letter. *)
Lemma symbol_cases (P : ascii -> Prop) :
  Forall P symbols -> forall x, is_symbol x = true -> P x.
Proof.
  intros H x S. unfold is_symbol in S. apply existsb_exists in S.
  destruct S as (y & Hy & E). apply Ascii.eqb_eq in E. subst y.
  rewrite Forall_forall in H. exact (H x Hy).
Qed.

Lemma space_lacks_symbol (ws : string) :
  lacks (fun x => negb (isspace x)) ws = true -> lacks is_symbol ws = true.
Proof.
  apply lacks_weaken. apply symbol_cases. unfold symbols.
  repeat constructor.
Qed.

Lemma digits_lack_symbol (d : string) :
  lacks (fun x => negb (isdigit x)) d = true -> lacks is_symbol d = true.
Proof.
  apply lacks_weaken. apply symbol_cases. unfold symbols.
  repeat constructor.
Qed.

Lemma digit_no_space (x : ascii) : isdigit x = true -> isspace x = false.
Proof.
  destruct x as [[] [] [] [] [] [] [] []]; vm_compute; congruence.
Qed.

(** The pattern of line 16 on white space, a hyphen, a space and a
    text. *)
Lemma unordered_match (ws t : string) :
  lacks (fun x => negb (isspace x)) ws = true ->
  count LF t = 0 ->
  starts_without isspace t = true ->
  match_at re_MULTILINE (pattern unordered) None (ws ++ "-" ++ " " ++ t)
  = Some ([t], EmptyString).
Proof.
  intros WS N W. unfold match_at.
  change (pattern unordered)
    with (Seq Bol (Seq (star Space) (Seq (chr "-") (seq [plus Space; any; Eol])))).
  cbn [matches at_bol]. unfold star at 1.
  apply rep_greedy_run; [exact WS |].
  rewrite Nat.sub_0_l, rep_greedy_stop by reflexivity.
  unfold chr. rewrite chr_app. apply (tail_match t _ []); assumption.
Qed.

(** The pattern of line 20 on white space, digits, a dot, a space and a
    text. *)
Lemma ordered_match (ws d t : string) :
  lacks (fun x => negb (isspace x)) ws = true ->
  lacks (fun x => negb (isdigit x)) d = true ->
  d <> EmptyString ->
  count LF t = 0 ->
  starts_without isspace t = true ->
  match_at re_MULTILINE (pattern ordered) None (ws ++ d ++ "." ++ " " ++ t)
  = Some ([t], EmptyString).
Proof.
  intros WS D Dne N W. unfold match_at.
  change (pattern ordered)
    with (Seq Bol (Seq (star Space) (Seq (plus Digit)
            (Seq (chr ".") (seq [plus Space; any; Eol]))))).
  cbn [matches at_bol]. unfold star at 1.
  apply rep_greedy_run; [exact WS |].
  rewrite Nat.sub_0_l, rep_greedy_stop.
  - unfold plus at 1. cbn [matches].
    apply rep_greedy_run; [exact D |].
    replace (1 - String.length d) with 0
      by (destruct d; [congruence | reflexivity]).
    rewrite rep_greedy_stop by reflexivity.
    unfold chr. rewrite chr_app. apply (tail_match t _ []); assumption.
  - destruct d as [|x d]; [congruence |].
    apply lacks_tail in D as [D _]. apply negb_false_iff in D.
    cbn [append starts_without cls_matches].
    rewrite (digit_no_space _ D). reflexivity.
Qed.

End ItemMatch.

(** X13: a hyphen item loses its indentation, however deep it is: white
    space, a hyphen, a space and a text of one line come out as a
    hyphen, a space and the text.  The rule of line 17 for nested items
    never takes part. *)
Theorem convert_unordered_item (ws t : string) :
  all_of isspace ws = true ->
  lacks is_symbol t = true ->
  count LF t = 0 ->
  starts_without isspace t = true ->
  convert_gitlab_to_jira (ws ++ "-" ++ " " ++ t) = "- " ++ t.
Proof.
  unfold all_of. intros WS L N W. pose proof (space_lacks_symbol _ WS) as LW.
  unfold convert_gitlab_to_jira, rules.
  keep "#"%char. keep "#"%char. keep "#"%char.
  keep "*"%char. keep "_"%char. keep "*"%char. keep "_"%char.
  eapply fold_step.
  { apply (apply_whole unordered _ [t]); [reflexivity | |].
    - destruct ws; discriminate.
    - apply unordered_match; assumption. }
  cbn [expand replacement unordered nth pred]. rewrite append_empty.
  keep_anchored.
  keep_anchored. keep_anchored.
  keep "["%char. keep "["%char.
  keep "`"%char. keep "`"%char.
  keep ">"%char.
  keep "|"%char. keep "|"%char.
  keep_anchored.
  keep "~"%char.
  keep "@"%char.
  reflexivity.
Qed.

Lemma convert_unordered_item_witness :
  convert_gitlab_to_jira ("      " ++ "-" ++ " " ++ "third level") = "- " ++ "third level".
Proof. apply (convert_unordered_item "      " "third level"); reflexivity. Defined.

(** X14: a numbered item loses its number and its indentation: white
    space, digits, a dot, a space and a text come out as one hash, a
    space and the text, at every depth and for every number, when the
    text has one line, none of the ten punctuation characters and no
    white space at its start. *)
Theorem convert_ordered_item (ws d t : string) :
  all_of isspace ws = true ->
  all_of isdigit d = true ->
  d <> EmptyString ->
  lacks is_symbol t = true ->
  count LF t = 0 ->
  starts_without isspace t = true ->
  convert_gitlab_to_jira (ws ++ d ++ "." ++ " " ++ t) = "# " ++ t.
Proof.
  unfold all_of. intros WS D Dne L N W.
  pose proof (space_lacks_symbol _ WS) as LW.
  pose proof (digits_lack_symbol _ D) as LD.
  unfold convert_gitlab_to_jira, rules.
  keep "#"%char. keep "#"%char. keep "#"%char.
  keep "*"%char. keep "_"%char. keep "*"%char. keep "_"%char.
  keep "-"%char. keep "-"%char.
  eapply fold_step.
  { apply (apply_whole ordered _ [t]); [reflexivity | |].
    - destruct ws; [destruct d; [congruence | discriminate] | discriminate].
    - apply ordered_match; assumption. }
  cbn [expand replacement ordered nth pred]. rewrite append_empty.
  keep_anchored.
  keep "["%char. keep "["%char.
  keep "`"%char. keep "`"%char.
  keep ">"%char.
  keep "|"%char. keep "|"%char.
  keep "-"%char.
  keep "~"%char.
  keep "@"%char.
  reflexivity.
Qed.

Lemma convert_ordered_item_witness :
  convert_gitlab_to_jira ("   " ++ "12" ++ "." ++ " " ++ "twelfth") = "# " ++ "twelfth".
Proof.
  apply (convert_ordered_item "   " "12" "twelfth");
    reflexivity || discriminate.
Defined.

(** The rules from line 16 to line 43, on a text without their
    punctuation that has one line and does not start like a numbered
    item; lines 46 and 49 are left. *)
Ltac lists_to_rule :=
  keep "-"%char; keep "-"%char;
  keep_anchored; keep_anchored;
  keep "["%char; keep "["%char;
  keep "`"%char; keep "`"%char;
  keep ">"%char;
  keep "|"%char; keep "|"%char;
  keep "-"%char.

(** The rules of lines 5 to 13. *)
Ltac headers_to_emphasis :=
  keep "#"%char; keep "#"%char; keep "#"%char;
  keep "*"%char; keep "_"%char; keep "*"%char; keep "_"%char.

Section Emphasis.

(** The pattern of line 10 needs two stars in a row. *)
Lemma bold_needs_pair (p : option ascii) (s : string) :
  count "*" s <= 1 -> match_at no_flags (pattern bold) p s = None.
Proof.
  intros C. unfold match_at.
  cbv [pattern bold span seq lit chr].
  destruct s as [|x [|y s]]; cbn [matches cls_matches]; try reflexivity.
  - destruct (Ascii.eqb x "*"); reflexivity.
  - simpl in C.
    destruct (Ascii.eqb x "*"); [| reflexivity].
    destruct (Ascii.eqb y "*"); [simpl in C; lia | reflexivity].
Qed.

(** Line 10 leaves emphasised text as it is. *)
Lemma bold_keeps_emphasis (t : string) :
  lacks (is_char "*") t = true ->
  apply ("*" ++ t ++ "*") bold = "*" ++ t ++ "*".
Proof.
  intros S. apply lacks_count in S. unfold apply, sub.
  apply (sub_from_no_match _ _ _
           (fun p s => (p = None /\ s = "*" ++ t ++ "*") \/ count "*" s <= 1)).
  - intros p x s [[_ E] | C]; right.
    + injection E as _ ->. rewrite count_app, S. simpl. lia.
    + simpl in C. lia.
  - intros p s [[-> ->] | C]; [| apply bold_needs_pair, C].
    unfold match_at.
    cbv [pattern bold span seq lit chr].
    destruct t as [|x t]; [reflexivity |].
    simpl in S. cbn [append matches cls_matches].
    rewrite Ascii.eqb_refl.
    destruct (Ascii.eqb x "*"); [discriminate | reflexivity].
  - left. split; reflexivity.
Qed.

End Emphasis.

(** X15: emphasised text of one line, between single stars, comes out
    between underscores; line 10 does not take it for bold. *)
Theorem convert_emphasis_text (t : string) :
  lacks is_symbol t = true ->
  count LF t = 0 ->
  convert_gitlab_to_jira ("*" ++ t ++ "*") = "_" ++ t ++ "_".
Proof.
  intros L N. unfold convert_gitlab_to_jira, rules.
  keep "#"%char. keep "#"%char. keep "#"%char.
  eapply fold_step.
  { apply bold_keeps_emphasis. lacks_goal "*"%char. }
  keep "_"%char.
  eapply fold_step.
  { apply (apply_whole emphasis _ [t]); [reflexivity | discriminate |].
    apply (span_match "*" "_" "_" t "*" EmptyString);
      [exact N | lacks_goal "*"%char]. }
  cbn [expand replacement emphasis span nth pred].
  eapply fold_step.
  { apply (apply_whole emphasis_underscore ("_" ++ t ++ "_" ++ EmptyString) [t]);
      [reflexivity | discriminate |].
    rewrite append_empty.
    apply (span_match "_" "_" "_" t "_" EmptyString);
      [exact N | lacks_goal "_"%char]. }
  cbn [expand replacement emphasis_underscore span nth pred].
  rewrite append_empty.
  lists_to_rule. keep "~"%char. keep "@"%char.
  reflexivity.
Qed.

Lemma convert_emphasis_text_witness :
  convert_gitlab_to_jira ("*" ++ "stressed" ++ "*") = "_" ++ "stressed" ++ "_".
Proof. apply (convert_emphasis_text "stressed"); reflexivity. Defined.

(** X16: bold text written with two underscores on each side comes out
    as emphasis too: line 11 gives it single stars, which line 12 turns
    into underscores. *)
Theorem convert_bold_underscore_text (t : string) :
  lacks is_symbol t = true ->
  count LF t = 0 ->
  convert_gitlab_to_jira ("__" ++ t ++ "__") = "_" ++ t ++ "_".
Proof.
  intros L N. unfold convert_gitlab_to_jira, rules.
  keep "#"%char. keep "#"%char. keep "#"%char.
  keep "*"%char.
  eapply fold_step.
  { apply (apply_whole bold_underscore _ [t]); [reflexivity | discriminate |].
    apply span_match; [exact N | lacks_goal "_"%char]. }
  cbn [expand replacement bold_underscore span nth pred].
  eapply fold_step.
  { apply (apply_whole emphasis ("*" ++ t ++ "*" ++ EmptyString) [t]);
      [reflexivity | discriminate |].
    rewrite append_empty.
    apply (span_match "*" "_" "_" t "*" EmptyString);
      [exact N | lacks_goal "*"%char]. }
  cbn [expand replacement emphasis span nth pred].
  eapply fold_step.
  { apply (apply_whole emphasis_underscore ("_" ++ t ++ "_" ++ EmptyString) [t]);
      [reflexivity | discriminate |].
    rewrite append_empty.
    apply (span_match "_" "_" "_" t "_" EmptyString);
      [exact N | lacks_goal "_"%char]. }
  cbn [expand replacement emphasis_underscore span nth pred].
  rewrite append_empty.
  lists_to_rule. keep "~"%char. keep "@"%char.
  reflexivity.
Qed.

Lemma convert_bold_underscore_text_witness :
  convert_gitlab_to_jira ("__" ++ "strong" ++ "__") = "_" ++ "strong" ++ "_".
Proof. apply (convert_bold_underscore_text "strong"); reflexivity. Defined.

(** X17: inline code of one line comes out between double braces. *)
Theorem convert_inline_code_text (t : string) :
  lacks is_symbol t = true ->
  count LF t = 0 ->
  convert_gitlab_to_jira ("`" ++ t ++ "`") = "{{" ++ t ++ "}}".
Proof.
  intros L N. unfold convert_gitlab_to_jira, rules.
  headers_to_emphasis.
  keep "-"%char. keep "-"%char.
  keep_anchored. keep_anchored.
  keep "["%char. keep "["%char.
  eapply fold_step.
  { apply (apply_whole inline_code _ [t]); [reflexivity | discriminate |].
    apply span_match; [exact N | lacks_goal "`"%char]. }
  cbn [expand replacement inline_code span nth pred].
  keep "`"%char.
  keep ">"%char.
  keep "|"%char. keep "|"%char.
  keep "-"%char.
  keep "~"%char.
  keep "@"%char.
  rewrite append_empty. reflexivity.
Qed.

Lemma convert_inline_code_text_witness :
  convert_gitlab_to_jira ("`" ++ "x = f(1)" ++ "`") = "{{" ++ "x = f(1)" ++ "}}".
Proof. apply (convert_inline_code_text "x = f(1)"); reflexivity. Defined.

(** X18: struck-through text of one line comes out between hyphens. *)
Theorem convert_strikethrough_text (t : string) :
  lacks is_symbol t = true ->
  count LF t = 0 ->
  convert_gitlab_to_jira ("~~" ++ t ++ "~~") = "-" ++ t ++ "-".
Proof.
  intros L N. unfold convert_gitlab_to_jira, rules.
  headers_to_emphasis.
  lists_to_rule.
  eapply fold_step.
  { apply (apply_whole strikethrough _ [t]); [reflexivity | discriminate |].
    apply span_match; [exact N | lacks_goal "~"%char]. }
  cbn [expand replacement strikethrough span nth pred].
  keep "@"%char.
  rewrite append_empty. reflexivity.
Qed.

Lemma convert_strikethrough_text_witness :
  convert_gitlab_to_jira ("~~" ++ "gone" ++ "~~") = "-" ++ "gone" ++ "-".
Proof. apply (convert_strikethrough_text "gone"); reflexivity. Defined.

Section LinkMatch.

Lemma seq_step (f : flags) (r1 r2 : regex)
    (k : option ascii -> string -> list string -> option hit)
    (p : option ascii) (s : string) (caps : list string) :
  matches f (Seq r1 r2) k p s caps = matches f r1 (matches f r2 k) p s caps.
Proof. reflexivity. Qed.

Lemma bol_step (f : flags)
    (k : option ascii -> string -> list string -> option hit)
    (s : string) (caps : list string) :
  matches f Bol k None s caps = k None s caps.
Proof. reflexivity. Qed.

Lemma word_no_LF (name : string) :
  all_of isword name = true -> count LF name = 0.
Proof.
  intros H. apply lacks_count. revert H. apply lacks_weaken.
  intros x E. apply Ascii.eqb_eq in E. subst x. reflexivity.
Qed.

(** The pattern of line 49 on an at sign and a name of word characters. *)
Lemma mention_match (name : string) (p : option ascii) :
  all_of isword name = true ->
  name <> EmptyString ->
  match_at no_flags (pattern mention) p ("@" ++ name)
  = Some ([name], EmptyString).
Proof.
  intros Wd Ne. unfold match_at.
  change (pattern mention)
    with (Seq (One (Lit "@")) (Seq (Group (plus Word)) Eps)).
  rewrite seq_step, chr_app. unfold plus. cbn [matches].
  rewrite <- (append_empty name) at 1.
  apply rep_greedy_run; [exact Wd |].
  replace (1 - String.length name) with 0
    by (destruct name; [congruence | reflexivity]).
  cbn [rep]. rewrite consumed_all. reflexivity.
Qed.

(** The pattern of line 24 on a label between square brackets and an
    address between round ones. *)
Lemma link_match (a b : string) (p : option ascii) :
  count LF a = 0 -> count LF b = 0 ->
  lacks (is_char "]") a = true ->
  lacks (is_char ")") b = true ->
  match_at no_flags (pattern link) p ("[" ++ a ++ "](" ++ b ++ ")")
  = Some ([a; b], EmptyString).
Proof.
  intros Na Nb Sa Sb. unfold match_at.
  change (pattern link)
    with (Seq (One (Lit "["))
            (Seq (Group (Rep Dot 0 None false))
               (Seq (lit "](")
                  (Seq (Group (Rep Dot 0 None false))
                     (Seq (One (Lit ")")) Eps))))).
  rewrite seq_step, chr_app. cbn [matches].
  rewrite (rep_lazy_run no_flags Dot (is_char "]"));
    [| intros p' x s H; apply lit_fails; exact H | apply dot_run, Na | exact Sa].
  apply rep_lazy_stop. rewrite lit_app. cbn [matches].
  rewrite (rep_lazy_run no_flags Dot (is_char ")"));
    [| intros p' x s H; cbn [matches cls_matches]; unfold is_char in H;
       rewrite H; reflexivity
     | apply dot_run, Nb | exact Sb].
  apply rep_lazy_stop. cbn [matches cls_matches].
  rewrite Ascii.eqb_refl, !consumed_app. reflexivity.
Qed.

(** One [re.sub] line at a match that goes from the second character to
    the end of the text, with none at the first. *)
Lemma apply_after_first (r : rule) (x : ascii) (s : string)
    (caps : list string) :
  needs (mode r) (fun _ => true) (pattern r) = true ->
  s <> EmptyString ->
  match_at (mode r) (pattern r) None (String x EmptyString ++ s) = None ->
  match_at (mode r) (pattern r) (Some x) s = Some (caps, EmptyString) ->
  apply (String x EmptyString ++ s) r
    = String x EmptyString ++ expand (replacement r) caps.
Proof.
  intros Nd Ne H0 H1. unfold apply, sub.
  cbn [append sub_from]. cbn [append] in H0. rewrite H0.
  rewrite (sub_from_whole _ _ _ _ _ caps Nd Ne H1). reflexivity.
Qed.

(** The pattern of line 36 on a quoted line. *)
Lemma blockquote_match (t : string) :
  count LF t = 0 ->
  starts_without isspace t = true ->
  match_at re_MULTILINE (pattern blockquote) None (">" ++ " " ++ t)
  = Some ([t], EmptyString).
Proof.
  intros N W. unfold match_at.
  change (pattern blockquote)
    with (Seq Bol (Seq (One (Lit ">")) (seq [plus Space; any; Eol]))).
  rewrite seq_step, bol_step, seq_step, chr_app.
  apply (tail_match t _ []); assumption.
Qed.

(** The pattern of line 39 on a line between two bars: the greedy group
    first reads the last bar too and gives it back. *)
Lemma table_row_match (t : string) :
  count LF t = 0 ->
  match_at re_MULTILINE (pattern table_row) None ("|" ++ t ++ "|")
  = Some ([t], EmptyString).
Proof.
  intros N. unfold match_at.
  change (pattern table_row)
    with (Seq Bol (Seq (One (Lit "|"))
                     (Seq (Group (Rep Dot 0 None true))
                        (Seq (One (Lit "|")) (Seq Eol Eps))))).
  rewrite seq_step, bol_step, seq_step, chr_app. cbn [matches].
  apply rep_greedy_run; [apply dot_run, N |].
  rewrite Nat.sub_0_l. cbn [rep matches cls_matches at_eol].
  rewrite consumed_app. reflexivity.
Qed.

End LinkMatch.

(** X19: a mention, an at sign and a name of letters and digits, comes
    out as the name between the bracket with the tilde and the closing
    bracket. *)
Theorem convert_mention_name (name : string) :
  all_of isword name = true ->
  lacks is_symbol name = true ->
  name <> EmptyString ->
  convert_gitlab_to_jira ("@" ++ name) = "[~" ++ name ++ "]".
Proof.
  intros Wd L Ne. pose proof (word_no_LF _ Wd) as N.
  unfold convert_gitlab_to_jira, rules.
  headers_to_emphasis. lists_to_rule. keep "~"%char.
  eapply fold_step.
  { apply (apply_whole mention _ [name]); [reflexivity | discriminate |].
    apply mention_match; assumption. }
  reflexivity.
Qed.

Lemma convert_mention_name_witness :
  convert_gitlab_to_jira ("@" ++ "alice42") = "[~" ++ "alice42" ++ "]".
Proof.
  apply (convert_mention_name "alice42"); reflexivity || discriminate.
Defined.

(** X20: a link, a label between square brackets and an address between
    round ones, comes out as the label, a bar and the address between
    square brackets. *)
Theorem convert_link_text (a b : string) :
  lacks is_symbol a = true -> lacks is_symbol b = true ->
  count LF a = 0 -> count LF b = 0 ->
  lacks (is_char "]") a = true ->
  lacks (is_char ")") a = true ->
  lacks (is_char ")") b = true ->
  convert_gitlab_to_jira ("[" ++ a ++ "](" ++ b ++ ")")
    = "[" ++ a ++ "|" ++ b ++ "]".
Proof.
  intros La Lb Na Nb Sa Pa Pb. unfold convert_gitlab_to_jira, rules.
  headers_to_emphasis.
  keep "-"%char. keep "-"%char.
  keep_anchored. keep_anchored.
  eapply fold_step.
  { apply (apply_whole link _ [a; b]); [reflexivity | discriminate |].
    apply link_match; assumption. }
  cbn [expand replacement link nth pred].
  keep ")"%char.
  keep "`"%char. keep "`"%char.
  keep ">"%char.
  keep_anchored. keep_anchored.
  keep "-"%char.
  keep "~"%char.
  keep "@"%char.
  reflexivity.
Qed.

Lemma convert_link_text_witness :
  convert_gitlab_to_jira ("[" ++ "Home page" ++ "](" ++ "http://x.com/a" ++ ")")
    = "[" ++ "Home page" ++ "|" ++ "http://x.com/a" ++ "]".
Proof.
  apply (convert_link_text "Home page" "http://x.com/a"); reflexivity.
Defined.

(** X21: an image comes out as an exclamation mark and a link.  The
    link rule of line 24 rewrites what follows the mark, and the image
    rule of line 27 finds nothing left to match. *)
Theorem convert_image_text (a b : string) :
  lacks is_symbol a = true -> lacks is_symbol b = true ->
  count LF a = 0 -> count LF b = 0 ->
  lacks (is_char "]") a = true ->
  lacks (is_char ")") a = true ->
  lacks (is_char ")") b = true ->
  convert_gitlab_to_jira ("!" ++ "[" ++ a ++ "](" ++ b ++ ")")
    = "!" ++ "[" ++ a ++ "|" ++ b ++ "]".
Proof.
  intros La Lb Na Nb Sa Pa Pb. unfold convert_gitlab_to_jira, rules.
  headers_to_emphasis.
  keep "-"%char. keep "-"%char.
  keep_anchored. keep_anchored.
  eapply fold_step.
  { apply (apply_after_first link "!" _ [a; b]);
      [reflexivity | discriminate | reflexivity |].
    apply link_match; assumption. }
  cbn [expand replacement link nth pred].
  keep ")"%char.
  keep "`"%char. keep "`"%char.
  keep ">"%char.
  keep_anchored. keep_anchored.
  keep "-"%char.
  keep "~"%char.
  keep "@"%char.
  reflexivity.
Qed.

Lemma convert_image_text_witness :
  convert_gitlab_to_jira ("!" ++ "[" ++ "Logo" ++ "](" ++ "http://x.com/i.png" ++ ")")
    = "!" ++ "[" ++ "Logo" ++ "|" ++ "http://x.com/i.png" ++ "]".
Proof.
  apply (convert_image_text "Logo" "http://x.com/i.png"); reflexivity.
Defined.

(** X22: a quoted line comes out between two quote markers, each on a
    line of its own. *)
Theorem convert_blockquote_line (t : string) :
  lacks is_symbol t = true ->
  count LF t = 0 ->
  starts_without isspace t = true ->
  convert_gitlab_to_jira (">" ++ " " ++ t)
    = "{quote}" ++ nl ++ t ++ nl ++ "{quote}".
Proof.
  intros L N W. unfold convert_gitlab_to_jira, rules.
  headers_to_emphasis.
  keep "-"%char. keep "-"%char.
  keep_anchored. keep_anchored.
  keep "["%char. keep "["%char.
  keep "`"%char. keep "`"%char.
  eapply fold_step.
  { apply (apply_whole blockquote _ [t]); [reflexivity | discriminate |].
    apply blockquote_match; assumption. }
  cbn [expand replacement blockquote nth pred].
  keep "|"%char. keep "|"%char.
  keep "-"%char.
  keep "~"%char.
  keep "@"%char.
  rewrite append_empty, append_assoc. reflexivity.
Qed.

Lemma convert_blockquote_line_witness :
  convert_gitlab_to_jira (">" ++ " " ++ "said so")
    = "{quote}" ++ nl ++ "said so" ++ nl ++ "{quote}".
Proof. apply (convert_blockquote_line "said so"); reflexivity. Defined.

(** X23: a table row, a line between two bars with no bar inside, comes
    out between doubled bars. *)
Theorem convert_table_row (t : string) :
  lacks is_symbol t = true ->
  count LF t = 0 ->
  convert_gitlab_to_jira ("|" ++ t ++ "|") = "||" ++ t ++ "||".
Proof.
  intros L N. unfold convert_gitlab_to_jira, rules.
  headers_to_emphasis.
  keep "-"%char. keep "-"%char.
  keep_anchored. keep_anchored.
  keep "["%char. keep "["%char.
  keep "`"%char. keep "`"%char.
  keep ">"%char.
  eapply fold_step.
  { apply (apply_whole table_row _ [t]); [reflexivity | discriminate |].
    apply table_row_match; assumption. }
  cbn [expand replacement table_row nth pred].
  keep_anchored.
  keep "-"%char.
  keep "~"%char.
  keep "@"%char.
  rewrite append_empty. reflexivity.
Qed.

Lemma convert_table_row_witness :
  convert_gitlab_to_jira ("|" ++ " name " ++ "|") = "||" ++ " name " ++ "||".
Proof. apply (convert_table_row " name "); reflexivity. Defined.

Section Hyphens.

Lemma lacks_mul (bad : ascii -> bool) (s : string) (n : nat) :
  lacks bad s = true -> lacks bad (mul s n) = true.
Proof.
  intros H. induction n as [|n IH]; simpl; [reflexivity |].
  rewrite lacks_app, H, IH. reflexivity.
Qed.

(** The pattern of line 43 on a line of three hyphens or more. *)
Lemma horizontal_rule_match (m : nat) :
  match_at no_flags (pattern horizontal_rule) None ("---" ++ mul "-" m)
  = Some ([], EmptyString).
Proof.
  unfold match_at.
  change (pattern horizontal_rule)
    with (Seq Bol (Seq (Rep (Lit "-") 3 None true) Eps)).
  rewrite seq_step, bol_step. cbn [matches].
  rewrite <- (append_empty ("---" ++ mul "-" m)).
  apply rep_greedy_run.
  - rewrite lacks_app, lacks_mul; reflexivity.
  - rewrite length_app. reflexivity.
Qed.

End Hyphens.

(** X24: a document that is one line of three hyphens or more comes out
    as four hyphens. *)
Theorem convert_hyphen_line (m : nat) :
  convert_gitlab_to_jira ("---" ++ mul "-" m) = "----".
Proof.
  assert (N : count LF (mul "-" m) = 0) by (rewrite count_mul; simpl; lia).
  assert (L : forall c, is_char c "-" = false ->
                        lacks (is_char c) (mul "-" m) = true).
  { intros c H. apply lacks_mul. cbn [lacks]. rewrite H. reflexivity. }
  pose proof (L "#"%char eq_refl). pose proof (L "*"%char eq_refl).
  pose proof (L "_"%char eq_refl). pose proof (L "["%char eq_refl).
  pose proof (L "`"%char eq_refl). pose proof (L ">"%char eq_refl).
  pose proof (L "|"%char eq_refl). pose proof (L "~"%char eq_refl).
  pose proof (L "@"%char eq_refl).
  unfold convert_gitlab_to_jira, rules.
  headers_to_emphasis.
  keep_anchored. keep_anchored.
  keep_anchored. keep_anchored.
  keep "["%char. keep "["%char.
  keep "`"%char. keep "`"%char.
  keep ">"%char.
  keep "|"%char. keep "|"%char.
  eapply fold_step.
  { apply (apply_whole horizontal_rule _ []); [reflexivity | discriminate |].
    apply horizontal_rule_match. }
  cbn [expand replacement horizontal_rule].
  keep "~"%char.
  keep "@"%char.
  reflexivity.
Qed.

Lemma horizontal_rule_first_line_only_witness :
  apply (String "a" (nl ++ "---" ++ nl ++ "-----")) horizontal_rule
    = String "a" (nl ++ "---" ++ nl ++ "-----").
Proof.
  apply (horizontal_rule_first_line_only "a" (nl ++ "---" ++ nl ++ "-----")).
  reflexivity.
Defined.
